(** * vtkShaderProgram: a GLSL shader program object

    A shallow embedding of [Rendering/OpenGL2/vtkShaderProgram.cxx] and of
    the members declared in [vtkShaderProgram.h], and the properties of the
    attach / link / bind / release state machine proved about it.

    The object talks to two kinds of collaborators: the OpenGL driver and
    the [vtkShader] objects it owns.  Every call the program issues to one
    of them is appended to a history kept next to the C++ fields, and what
    the collaborator answers is read from a [Driver], a deterministic
    oracle over that history.  "No native call was issued" is then the
    statement that the history did not grow. *)

From Stdlib Require Import ZArith Bool List Lia.
From Stdlib Require Import Ascii String DecimalString.
From stdpp Require Import gmap strings.

Open Scope Z_scope.

(** ** Machine integers *)

(** [static_cast<GLuint>(x)]: the value modulo 2^32. *)
Definition cast_GLuint (x : Z) : Z := x mod 2 ^ 32.

(** [static_cast<int>(x)] (and [GLint], [GLsizei]): the two's complement
    reading of the low 32 bits. *)
Definition cast_int (x : Z) : Z := (x + 2 ^ 31) mod 2 ^ 32 - 2 ^ 31.

Definition INT_MAX : Z := 2 ^ 31 - 1.

(** ** The shader objects the program consumes *)

Module vtkShader.

(** [vtkShader::Type]. *)
Inductive Type_ : Set := Vertex | Fragment | Geometry | Unknown.

Definition Type_eqb (a b : Type_) : bool :=
  match a, b with
  | Vertex, Vertex | Fragment, Fragment
  | Geometry, Geometry | Unknown, Unknown => true
  | _, _ => false
  end.

(** What the program reads of a shader: [GetHandle()], [GetType()],
    [GetSource()] and [GetError()]. *)
Record t : Set := mk {
  Handle : Z;
  ShaderType : Type_;
  Source : string;
  Error : string
}.

(** Modelled from the spec: [vtkShader::SetType] is not part of these
    sources; it sets the type tag. *)
Definition SetType (ty : Type_) (s : t) : t :=
  {| Handle := Handle s; ShaderType := ty;
     Source := Source s; Error := Error s |}.

End vtkShader.

(** ** Calls issued to the collaborators *)

Inductive GLpname : Set := GL_LINK_STATUS | GL_INFO_LOG_LENGTH.

(** [vtkShaderProgram::NormalizeOption]. *)
Inductive NormalizeOption : Set := Normalize | NoNormalize.

(** The last argument of [glVertexAttribPointer]: an offset into the bound
    buffer object ([BUFFER_OFFSET(i)]) or the address of client memory. *)
Inductive GLpointer : Set :=
| BUFFER_OFFSET (i : Z)
| ClientMemory (address : Z).

(** The native upload entry point behind each uniform setter.  Integer
    payloads are kept; floating-point payloads are left out of the history. *)
Inductive UniformUpload : Set :=
| glUniform1i (v0 : Z)
| glUniform1f
| glUniformMatrix4fv
| glUniformMatrix3fv
| glUniform1fv (count : Z)
| glUniform1iv (count : Z) (value : list Z)
| glUniform2fv (count : Z)
| glUniform3fv (count : Z)
| glUniform4fv (count : Z)
| glUniform2iv (count : Z) (value : list Z).

Inductive Event : Set :=
| glCreateProgram
| glAttachShader (program shader : Z)
| glDetachShader (program shader : Z)
| glLinkProgram (program : Z)
| glGetProgramiv (program : Z) (pname : GLpname)
| glGetShaderiv (shader : Z) (pname : GLpname)
| glGetShaderInfoLog (shader maxLength : Z)
| glUseProgram (program : Z)
| glDeleteProgram (program : Z)
| glGetAttribLocation (program : Z) (name : string)
| glGetUniformLocation (program : Z) (name : string)
| glEnableVertexAttribArray (index : Z)
| glDisableVertexAttribArray (index : Z)
| glVertexAttribPointer (index size type : Z) (normalized : bool)
                        (stride : Z) (pointer : GLpointer)
| glUniform (location : Z) (upload : UniformUpload)
| Shader_Compile (shader : vtkShader.t)
| Shader_Cleanup (shader : vtkShader.t)
| vtkErrorMacro (message : string).

Definition History : Set := list Event.

(** The calls that go to the OpenGL driver. *)
Definition is_native (e : Event) : bool :=
  match e with
  | Shader_Compile _ | Shader_Cleanup _ | vtkErrorMacro _ => false
  | _ => true
  end.

(** What the collaborators answer.  Each field is asked with the history up
    to and including the call it answers, so an answer may depend on the
    arguments of the call and on everything issued before it. *)
Record Driver : Type := {
  (** the name [glCreateProgram] returns *)
  created_program : History -> Z;
  (** what [glGetProgramiv] stores through its last argument *)
  program_iv : History -> Z;
  (** the value of [length] after [glGetShaderiv(.., &length)] *)
  shader_iv : History -> Z;
  (** the C string [glGetShaderInfoLog] leaves in the buffer *)
  info_log : History -> string;
  attrib_location : History -> Z;
  uniform_location : History -> Z;
  (** [vtkShader::Compile]: its result and the shader afterwards *)
  compile_result : History -> bool * vtkShader.t;
  (** the shader after [vtkShader::Cleanup] *)
  cleanup_result : History -> vtkShader.t
}.

(** The scalar type tags of [vtkType.h] and the OpenGL enumerants the
    program maps them to; neither header is part of these sources, so the
    values are taken as given. *)
Record TypeTags : Set := {
  VTK_CHAR : Z; VTK_UNSIGNED_CHAR : Z; VTK_SHORT : Z; VTK_UNSIGNED_SHORT : Z;
  VTK_INT : Z; VTK_UNSIGNED_INT : Z; VTK_FLOAT : Z; VTK_DOUBLE : Z;
  GL_BYTE : Z; GL_UNSIGNED_BYTE : Z; GL_SHORT : Z; GL_UNSIGNED_SHORT : Z;
  GL_INT : Z; GL_UNSIGNED_INT : Z; GL_FLOAT : Z; GL_DOUBLE : Z
}.

(** [vtkTypeTraits<T>::VTKTypeID()]. *)
Class vtkTypeTraits (V : Type) : Set := VTKTypeID : Z.

(** A client-side container as [SetAttributeArray] sees it: [empty()] and
    the address [&array[0]] of its tightly packed elements. *)
Record Container (V : Type) : Type := {
  elements : list V;
  data : Z
}.
Arguments elements {V} _.
Arguments data {V} _.

Definition empty {V : Type} (array : Container V) : bool :=
  match elements array with
  | [] => true
  | _ :: _ => false
  end.

(** The one member of the render window's shader cache the program touches:
    the program last bound, by object identity. *)
Record vtkOpenGLRenderWindow : Set := {
  LastShaderBound : option nat
}.

(** Modelled from the spec: [vtkOpenGLShaderCache::ClearLastShaderBound]
    is not part of these sources; it forgets the last bound program. *)
Definition ClearLastShaderBound (w : vtkOpenGLRenderWindow)
  : vtkOpenGLRenderWindow :=
  {| LastShaderBound := None |}.

(** ** The numbered source listing *)

Definition newline : ascii := "010"%char.

(** What [operator<<] prints for an [int]. *)
Definition show_int (n : Z) : string := NilZero.string_of_int (Z.to_int n).

(** The successive values of [aline] in [while (std::getline(stream, aline))]:
    each call extracts characters up to and excluding the next line break,
    which it consumes; a call that reaches the end of the stream without
    having extracted any character fails and ends the loop.  [aline]
    accumulates the characters of the call in progress. *)
Fixpoint getlines_from (aline stream : string) : list string :=
  match stream with
  | EmptyString =>
    match aline with
    | EmptyString => []
    | _ => [aline]
    end
  | String c rest =>
    if Ascii.eqb c newline then aline :: getlines_from "" rest
    else getlines_from (aline +:+ String c "") rest
  end.

Definition getlines (stream : string) : list string := getlines_from "" stream.

(** One turn of the loop body: [sstm << lineNum << ": " << aline << "\n";
    lineNum++], the counter being an [int]. *)
Definition listing_step (acc : string * Z) (aline : string) : string * Z :=
  let '(sstm, lineNum) := acc in
  (sstm +:+ show_int lineNum +:+ ": " +:+ aline +:+ String newline "",
   cast_int (lineNum + 1)).

(** [sstm.str()] after the loop over the lines of [source]. *)
Definition listing (source : string) : string :=
  fst (fold_left listing_step (getlines source) ("", 1)).

(** ** The public uniform setters *)

Inductive UniformSetter : Set :=
| SetUniformi (i : Z)
| SetUniformf
| SetUniformMatrix4x4
| SetUniformMatrix3x3
| SetUniform1fv (count : Z)
| SetUniform1iv (count : Z) (v : list Z)
| SetUniform3fv (count : Z)
| SetUniform2f
| SetUniform3f
| SetUniform4f
| SetUniform2i (v : list Z)
| SetUniform3uc
| SetUniform4uc.

Module vtkShaderProgram.

(** ** The object *)

Record t : Type := mk {
  VertexShader : vtkShader.t;
  FragmentShader : vtkShader.t;
  GeometryShader : vtkShader.t;
  MD5Hash : string;
  Handle : Z;
  VertexShaderHandle : Z;
  FragmentShaderHandle : Z;
  Linked : bool;
  Bound : bool;
  Compiled : bool;
  Error : string;
  Attributes : gmap string Z;
  (** ghost: the calls issued so far, oldest first *)
  issued : History
}.

Definition set_VertexShader (v : vtkShader.t) (p : t) : t :=
  mk v (FragmentShader p) (GeometryShader p) (MD5Hash p) (Handle p)
     (VertexShaderHandle p) (FragmentShaderHandle p) (Linked p) (Bound p)
     (Compiled p) (Error p) (Attributes p) (issued p).

Definition set_FragmentShader (v : vtkShader.t) (p : t) : t :=
  mk (VertexShader p) v (GeometryShader p) (MD5Hash p) (Handle p)
     (VertexShaderHandle p) (FragmentShaderHandle p) (Linked p) (Bound p)
     (Compiled p) (Error p) (Attributes p) (issued p).

Definition set_GeometryShader (v : vtkShader.t) (p : t) : t :=
  mk (VertexShader p) (FragmentShader p) v (MD5Hash p) (Handle p)
     (VertexShaderHandle p) (FragmentShaderHandle p) (Linked p) (Bound p)
     (Compiled p) (Error p) (Attributes p) (issued p).

Definition set_MD5Hash (v : string) (p : t) : t :=
  mk (VertexShader p) (FragmentShader p) (GeometryShader p) v (Handle p)
     (VertexShaderHandle p) (FragmentShaderHandle p) (Linked p) (Bound p)
     (Compiled p) (Error p) (Attributes p) (issued p).

Definition set_Handle (v : Z) (p : t) : t :=
  mk (VertexShader p) (FragmentShader p) (GeometryShader p) (MD5Hash p) v
     (VertexShaderHandle p) (FragmentShaderHandle p) (Linked p) (Bound p)
     (Compiled p) (Error p) (Attributes p) (issued p).

Definition set_VertexShaderHandle (v : Z) (p : t) : t :=
  mk (VertexShader p) (FragmentShader p) (GeometryShader p) (MD5Hash p)
     (Handle p) v (FragmentShaderHandle p) (Linked p) (Bound p)
     (Compiled p) (Error p) (Attributes p) (issued p).

Definition set_FragmentShaderHandle (v : Z) (p : t) : t :=
  mk (VertexShader p) (FragmentShader p) (GeometryShader p) (MD5Hash p)
     (Handle p) (VertexShaderHandle p) v (Linked p) (Bound p)
     (Compiled p) (Error p) (Attributes p) (issued p).

Definition set_Linked (v : bool) (p : t) : t :=
  mk (VertexShader p) (FragmentShader p) (GeometryShader p) (MD5Hash p)
     (Handle p) (VertexShaderHandle p) (FragmentShaderHandle p) v (Bound p)
     (Compiled p) (Error p) (Attributes p) (issued p).

Definition set_Bound (v : bool) (p : t) : t :=
  mk (VertexShader p) (FragmentShader p) (GeometryShader p) (MD5Hash p)
     (Handle p) (VertexShaderHandle p) (FragmentShaderHandle p) (Linked p) v
     (Compiled p) (Error p) (Attributes p) (issued p).

Definition set_Compiled (v : bool) (p : t) : t :=
  mk (VertexShader p) (FragmentShader p) (GeometryShader p) (MD5Hash p)
     (Handle p) (VertexShaderHandle p) (FragmentShaderHandle p) (Linked p)
     (Bound p) v (Error p) (Attributes p) (issued p).

Definition set_Error (v : string) (p : t) : t :=
  mk (VertexShader p) (FragmentShader p) (GeometryShader p) (MD5Hash p)
     (Handle p) (VertexShaderHandle p) (FragmentShaderHandle p) (Linked p)
     (Bound p) (Compiled p) v (Attributes p) (issued p).

Definition set_Attributes (v : gmap string Z) (p : t) : t :=
  mk (VertexShader p) (FragmentShader p) (GeometryShader p) (MD5Hash p)
     (Handle p) (VertexShaderHandle p) (FragmentShaderHandle p) (Linked p)
     (Bound p) (Compiled p) (Error p) v (issued p).

(** Issue a call: append it to the history. *)
Definition emit (e : Event) (p : t) : t :=
  mk (VertexShader p) (FragmentShader p) (GeometryShader p) (MD5Hash p)
     (Handle p) (VertexShaderHandle p) (FragmentShaderHandle p) (Linked p)
     (Bound p) (Compiled p) (Error p) (Attributes p) (issued p ++ [e]).

(** The constructor.  [fresh] is what [vtkShader::New()] returns. *)
Definition New (fresh : vtkShader.t) : t :=
  {| VertexShader := vtkShader.SetType vtkShader.Vertex fresh;
     FragmentShader := vtkShader.SetType vtkShader.Fragment fresh;
     GeometryShader := vtkShader.SetType vtkShader.Geometry fresh;
     MD5Hash := "";
     Handle := 0;
     VertexShaderHandle := 0;
     FragmentShaderHandle := 0;
     Linked := false;
     Bound := false;
     Compiled := false;
     Error := "";
     Attributes := ∅;
     issued := [] |}.

Definition GetHandle (p : t) : Z := Handle p.
Definition GetError (p : t) : string := Error p.
Definition isBound (p : t) : bool := Bound p.

Section Operations.

Context (tags : TypeTags) (drv : Driver).

(** ** Attach, detach, link, bind *)

Definition AttachShader (shader : vtkShader.t) (p : t) : bool * t :=
  if vtkShader.Handle shader =? 0 then
    (false, set_Error "Shader object was not initialized, cannot attach it." p)
  else if vtkShader.Type_eqb (vtkShader.ShaderType shader) vtkShader.Unknown then
    (false, set_Error "Shader object is of type Unknown and cannot be used." p)
  else
    let created :=
      if Handle p =? 0 then
        let p1 := emit glCreateProgram p in
        let handle_ := cast_GLuint (created_program drv (issued p1)) in
        if handle_ =? 0 then
          inl (set_Error "Could not create shader program." p1)
        else
          inr (set_Linked false (set_Handle (cast_int handle_) p1))
      else inr p in
    match created with
    | inl failed => (false, failed)
    | inr p2 =>
      let attach (p3 : t) : bool * t :=
        (true,
         set_Linked false
           (emit (glAttachShader (cast_GLuint (Handle p3))
                                 (cast_GLuint (vtkShader.Handle shader))) p3)) in
      match vtkShader.ShaderType shader with
      | vtkShader.Vertex =>
        let p3 :=
          if negb (VertexShaderHandle p2 =? 0) then
            emit (glDetachShader (cast_GLuint (Handle p2))
                                 (cast_GLuint (VertexShaderHandle p2))) p2
          else p2 in
        attach (set_VertexShaderHandle (vtkShader.Handle shader) p3)
      | vtkShader.Fragment =>
        let p3 :=
          if negb (FragmentShaderHandle p2 =? 0) then
            emit (glDetachShader (cast_GLuint (Handle p2))
                                 (cast_GLuint (FragmentShaderHandle p2))) p2
          else p2 in
        attach (set_FragmentShaderHandle (vtkShader.Handle shader) p3)
      | _ =>
        (false,
         set_Error "Unknown shader type encountered - this should not happen." p2)
      end
    end.

Definition DetachShader (shader : vtkShader.t) (p : t) : bool * t :=
  if vtkShader.Handle shader =? 0 then
    (false, set_Error "Shader object was not initialized, cannot attach it." p)
  else if vtkShader.Type_eqb (vtkShader.ShaderType shader) vtkShader.Unknown then
    (false, set_Error "Shader object is of type Unknown and cannot be used." p)
  else
    let p1 :=
      if Handle p =? 0 then
        set_Error "This shader prorgram has not been initialized yet." p
      else p in
    match vtkShader.ShaderType shader with
    | vtkShader.Vertex =>
      if negb (VertexShaderHandle p1 =? vtkShader.Handle shader) then
        (false, set_Error "The supplied shader was not attached to this program." p1)
      else
        (true,
         set_Linked false
           (set_VertexShaderHandle 0
              (emit (glDetachShader (cast_GLuint (Handle p1))
                                    (cast_GLuint (vtkShader.Handle shader))) p1)))
    | vtkShader.Fragment =>
      if negb (FragmentShaderHandle p1 =? vtkShader.Handle shader) then
        (false, set_Error "The supplied shader was not attached to this program." p1)
      else
        (true,
         set_Linked false
           (set_FragmentShaderHandle 0
              (emit (glDetachShader (cast_GLuint (Handle p1))
                                    (cast_GLuint (vtkShader.Handle shader))) p1)))
    | _ => (false, p1)
    end.

Definition Link (p : t) : bool * t :=
  if Linked p then (true, p)
  else if Handle p =? 0 then
    (false,
     set_Error "Program has not been initialized, and/or does not have shaders." p)
  else
    let p1 := emit (glLinkProgram (cast_GLuint (Handle p))) p in
    let p2 := emit (glGetProgramiv (cast_GLuint (Handle p)) GL_LINK_STATUS) p1 in
    let isCompiled := cast_int (program_iv drv (issued p2)) in
    if isCompiled =? 0 then
      let p3 :=
        emit (glGetShaderiv (cast_GLuint (Handle p)) GL_INFO_LOG_LENGTH) p2 in
      let length := cast_int (shader_iv drv (issued p3)) in
      if 1 <? length then
        let p4 :=
          emit (glGetShaderInfoLog (cast_GLuint (Handle p)) length) p3 in
        (false, set_Error (info_log drv (issued p4)) p4)
      else (false, p3)
    else
      (true, set_Attributes ∅ (set_Linked true p2)).

Definition Bind (p : t) : bool * t :=
  let '(linked, p1) := if Linked p then (true, p) else Link p in
  if negb linked then (false, p1)
  else (true, set_Bound true (emit (glUseProgram (cast_GLuint (Handle p1))) p1)).

Definition Release (p : t) : t :=
  set_Bound false (emit (glUseProgram 0) p).

(** ** Compilation of the two owned shaders *)

Definition CompileVertexShader (p : t) : bool * t :=
  let p1 := emit (Shader_Compile (VertexShader p)) p in
  let '(compiled, shader) := compile_result drv (issued p1) in
  (compiled, set_VertexShader shader p1).

Definition CompileFragmentShader (p : t) : bool * t :=
  let p1 := emit (Shader_Compile (FragmentShader p)) p in
  let '(compiled, shader) := compile_result drv (issued p1) in
  (compiled, set_FragmentShader shader p1).

(** The two [vtkErrorMacro] reports of a failed compile: the shader's error,
    then the numbered listing of its source. *)
Definition report_failed_compile (shader : vtkShader.t) (p : t) : t :=
  emit (vtkErrorMacro (listing (vtkShader.Source shader)))
       (emit (vtkErrorMacro (vtkShader.Error shader)) p).

Definition CompileShader (p : t) : Z * t :=
  let '(compiled, p1) := CompileVertexShader p in
  if negb compiled then (0, report_failed_compile (VertexShader p1) p1)
  else
    let '(compiled, p2) := CompileFragmentShader p1 in
    if negb compiled then (0, report_failed_compile (FragmentShader p2) p2)
    else
      let '(attached, p3) := AttachShader (VertexShader p2) p2 in
      if negb attached then (0, emit (vtkErrorMacro (GetError p3)) p3)
      else
        let '(attached, p4) := AttachShader (FragmentShader p3) p3 in
        if negb attached then (0, emit (vtkErrorMacro (GetError p4)) p4)
        else
          let '(linked, p5) := Link p4 in
          if negb linked then
            (0, emit (vtkErrorMacro ("Links failed: " +:+ GetError p5)) p5)
          else (1, set_Compiled true p5).

(** ** Release *)

Definition CleanupVertexShader (p : t) : t :=
  let p1 := emit (Shader_Cleanup (VertexShader p)) p in
  set_VertexShader (cleanup_result drv (issued p1)) p1.

Definition CleanupFragmentShader (p : t) : t :=
  let p1 := emit (Shader_Cleanup (FragmentShader p)) p in
  set_FragmentShader (cleanup_result drv (issued p1)) p1.

(** [this] is the identity of the program, [win] the window after
    [vtkOpenGLRenderWindow::SafeDownCast]: [None] when the argument is null
    or not an OpenGL window.  The member call through that null pointer has
    no defined result, hence [None]. *)
Definition ReleaseGraphicsResources
    (this : nat) (win : option vtkOpenGLRenderWindow) (p : t)
  : option (t * vtkOpenGLRenderWindow) :=
  let p1 := Release p in
  let p2 :=
    if Compiled p1 then
      let '(_, a) := DetachShader (VertexShader p1) p1 in
      let '(_, b) := DetachShader (FragmentShader a) a in
      set_Compiled false (CleanupFragmentShader (CleanupVertexShader b))
    else p1 in
  match win with
  | None => None
  | Some renWin =>
    let renWin' :=
      match LastShaderBound renWin with
      | Some bound =>
        if Nat.eqb bound this then ClearLastShaderBound renWin else renWin
      | None => renWin
      end in
    let p3 :=
      if negb (Handle p2 =? 0) then
        set_Linked false
          (set_Handle 0 (emit (glDeleteProgram (cast_GLuint (Handle p2))) p2))
      else p2 in
    Some (p3, renWin')
  end.

(** ** Name resolution *)

Definition FindAttributeArray (name : string) (p : t) : Z * t :=
  if String.eqb name "" || negb (Linked p) then (-1, p)
  else
    let p1 := emit (glGetAttribLocation (cast_GLuint (Handle p)) name) p in
    let location := cast_int (attrib_location drv (issued p1)) in
    if location =? -1 then
      (location,
       set_Error
         ("Specified attribute not found in current shader program: " +:+ name)
         p1)
    else (location, p1).

Definition FindUniform (name : string) (p : t) : Z * t :=
  if String.eqb name "" || negb (Linked p) then (-1, p)
  else
    let p1 := emit (glGetUniformLocation (cast_GLuint (Handle p)) name) p in
    let location := cast_int (uniform_location drv (issued p1)) in
    if location =? -1 then
      (location,
       set_Error ("Uniform " +:+ name +:+ " not found in current shader program.")
                 p1)
    else (location, p1).

(** ** Vertex attributes *)

(** The [switch] over the type tags, in the order of its cases; the build
    is one whose OpenGL headers define [GL_DOUBLE]. *)
Definition convertTypeToGL (type : Z) : Z :=
  if type =? VTK_CHAR tags then GL_BYTE tags
  else if type =? VTK_UNSIGNED_CHAR tags then GL_UNSIGNED_BYTE tags
  else if type =? VTK_SHORT tags then GL_SHORT tags
  else if type =? VTK_UNSIGNED_SHORT tags then GL_UNSIGNED_SHORT tags
  else if type =? VTK_INT tags then GL_INT tags
  else if type =? VTK_UNSIGNED_INT tags then GL_UNSIGNED_INT tags
  else if type =? VTK_FLOAT tags then GL_FLOAT tags
  else if type =? VTK_DOUBLE tags then GL_DOUBLE tags
  else 0.

Definition GL_normalized (normalize : NormalizeOption) : bool :=
  match normalize with
  | Normalize => true
  | NoNormalize => false
  end.

Definition EnableAttributeArray (name : string) (p : t) : bool * t :=
  let '(location, p1) := FindAttributeArray name p in
  if location =? -1 then
    (false,
     set_Error ("Could not enable attribute " +:+ name +:+ ". No such attribute.")
               p1)
  else (true, emit (glEnableVertexAttribArray (cast_GLuint location)) p1).

Definition DisableAttributeArray (name : string) (p : t) : bool * t :=
  let '(location, p1) := FindAttributeArray name p in
  if location =? -1 then
    (false,
     set_Error ("Could not disable attribute " +:+ name +:+ ". No such attribute.")
               p1)
  else (true, emit (glDisableVertexAttribArray (cast_GLuint location)) p1).

Definition UseAttributeArray
    (name : string) (offset stride elementType elementTupleSize : Z)
    (normalize : NormalizeOption) (p : t) : bool * t :=
  let '(location, p1) := FindAttributeArray name p in
  if location =? -1 then
    (false,
     set_Error ("Could not use attribute " +:+ name +:+ ". No such attribute.") p1)
  else
    (true,
     emit (glVertexAttribPointer (cast_GLuint location) elementTupleSize
             (convertTypeToGL elementType) (GL_normalized normalize)
             (cast_int stride) (BUFFER_OFFSET offset)) p1).

Definition SetAttributeArrayInternal
    (name : string) (buffer type tupleSize : Z) (normalize : NormalizeOption)
    (p : t) : bool * t :=
  if type =? -1 then
    (false, set_Error ("Unrecognized data type for attribute " +:+ name +:+ ".") p)
  else
    let '(location, p1) := FindAttributeArray name p in
    if location =? -1 then
      (false,
       set_Error ("Could not set attribute " +:+ name +:+ ". No such attribute.")
                 p1)
    else
      (true,
       emit (glVertexAttribPointer (cast_GLuint location) tupleSize
               (convertTypeToGL type) (GL_normalized normalize) 0
               (ClientMemory buffer)) p1).

Definition SetAttributeArray {V : Type} {traits : vtkTypeTraits V}
    (name : string) (array : Container V) (tupleSize : Z)
    (normalize : NormalizeOption) (p : t) : bool * t :=
  if empty array then
    (false,
     set_Error ("Refusing to upload empty array for attribute " +:+ name +:+ ".") p)
  else
    let type := @VTKTypeID V traits in
    SetAttributeArrayInternal name (data array) type tupleSize normalize p.

(** ** Uniforms *)

(** The uniform setters share one body; they differ in the native upload
    they end with. *)
Definition upload_of (setter : UniformSetter) : UniformUpload :=
  match setter with
  | SetUniformi i => glUniform1i (cast_int i)
  | SetUniformf => glUniform1f
  | SetUniformMatrix4x4 => glUniformMatrix4fv
  | SetUniformMatrix3x3 => glUniformMatrix3fv
  | SetUniform1fv count => glUniform1fv count
  | SetUniform1iv count v => glUniform1iv count v
  | SetUniform3fv count => glUniform3fv count
  | SetUniform2f => glUniform2fv 1
  | SetUniform3f => glUniform3fv 1
  | SetUniform4f => glUniform4fv 1
  | SetUniform2i v => glUniform2iv 1 v
  | SetUniform3uc => glUniform3fv 1
  | SetUniform4uc => glUniform4fv 1
  end.

Definition SetUniform (setter : UniformSetter) (name : string) (p : t)
  : bool * t :=
  let '(location, p1) := FindUniform name p in
  if location =? -1 then
    (false,
     set_Error ("Could not set uniform " +:+ name +:+ ". No such uniform.") p1)
  else (true, emit (glUniform location (upload_of setter)) p1).

(** ** The public interface as a transition system *)

(** [vtkSetMacro(Compiled, bool)]. *)
Definition SetCompiled (arg : bool) (p : t) : t :=
  if negb (Bool.eqb (Compiled p) arg) then set_Compiled arg p else p.

Definition SetMD5Hash (hash : string) (p : t) : t := set_MD5Hash hash p.

(** One call of a public member.  The [OpChange...] constructors stand for
    client code that changes an owned shader through the pointer
    [GetVertexShader()], [GetFragmentShader()] or [GetGeometryShader()]
    hands out.  ([SetVertexShader] and its two siblings are declared in the
    header and defined nowhere, so they cannot be called.) *)
Inductive Op : Type :=
| OpAttachShader (shader : vtkShader.t)
| OpDetachShader (shader : vtkShader.t)
| OpLink
| OpBind
| OpRelease
| OpReleaseGraphicsResources (this : nat) (win : option vtkOpenGLRenderWindow)
| OpCompileShader
| OpSetCompiled (arg : bool)
| OpSetMD5Hash (hash : string)
| OpEnableAttributeArray (name : string)
| OpDisableAttributeArray (name : string)
| OpUseAttributeArray (name : string)
                      (offset stride elementType elementTupleSize : Z)
                      (normalize : NormalizeOption)
| OpSetAttributeArray (V : Type) (traits : vtkTypeTraits V) (name : string)
                      (array : Container V) (tupleSize : Z)
                      (normalize : NormalizeOption)
| OpSetUniform (setter : UniformSetter) (name : string)
| OpChangeVertexShader (shader : vtkShader.t)
| OpChangeFragmentShader (shader : vtkShader.t)
| OpChangeGeometryShader (shader : vtkShader.t).

(** The object after the call; [None] when the call has no defined result. *)
Definition step (op : Op) (p : t) : option t :=
  match op with
  | OpAttachShader shader => Some (snd (AttachShader shader p))
  | OpDetachShader shader => Some (snd (DetachShader shader p))
  | OpLink => Some (snd (Link p))
  | OpBind => Some (snd (Bind p))
  | OpRelease => Some (Release p)
  | OpReleaseGraphicsResources this win =>
    option_map fst (ReleaseGraphicsResources this win p)
  | OpCompileShader => Some (snd (CompileShader p))
  | OpSetCompiled arg => Some (SetCompiled arg p)
  | OpSetMD5Hash hash => Some (SetMD5Hash hash p)
  | OpEnableAttributeArray name => Some (snd (EnableAttributeArray name p))
  | OpDisableAttributeArray name => Some (snd (DisableAttributeArray name p))
  | OpUseAttributeArray name offset stride elementType elementTupleSize normalize =>
    Some (snd (UseAttributeArray name offset stride elementType
                                 elementTupleSize normalize p))
  | OpSetAttributeArray V traits name array tupleSize normalize =>
    Some (snd (SetAttributeArray name array tupleSize normalize p))
  | OpSetUniform setter name => Some (snd (SetUniform setter name p))
  | OpChangeVertexShader shader => Some (set_VertexShader shader p)
  | OpChangeFragmentShader shader => Some (set_FragmentShader shader p)
  | OpChangeGeometryShader shader => Some (set_GeometryShader shader p)
  end.

Fixpoint run (ops : list Op) (p : t) : option t :=
  match ops with
  | [] => Some p
  | op :: rest =>
    match step op p with
    | Some p' => run rest p'
    | None => None
    end
  end.

(** The states a program can be in: constructed, then driven through its
    public members. *)
Inductive reachable : t -> Prop :=
| reachable_New (fresh : vtkShader.t) : reachable (New fresh)
| reachable_step (op : Op) (p p' : t) :
    reachable p -> step op p = Some p' -> reachable p'.


End Operations.

(** ** Concrete collaborators, for the examples *)

(** The values [vtkType.h] and [gl.h] give the tags. *)
Definition usual_tags : TypeTags :=
  {| VTK_CHAR := 2; VTK_UNSIGNED_CHAR := 3; VTK_SHORT := 4;
     VTK_UNSIGNED_SHORT := 5; VTK_INT := 6; VTK_UNSIGNED_INT := 7;
     VTK_FLOAT := 10; VTK_DOUBLE := 11;
     GL_BYTE := 5120; GL_UNSIGNED_BYTE := 5121; GL_SHORT := 5122;
     GL_UNSIGNED_SHORT := 5123; GL_INT := 5124; GL_UNSIGNED_INT := 5125;
     GL_FLOAT := 5126; GL_DOUBLE := 5130 |}.

Definition blank_shader : vtkShader.t :=
  vtkShader.mk 0 vtkShader.Unknown "" "".

Definition last_call (h : History) : Event := List.last h glCreateProgram.

(** A shader that compiles gets a handle of its own. *)
Definition compiles (h : History) : bool * vtkShader.t :=
  match last_call h with
  | Shader_Compile shader =>
    (true,
     vtkShader.mk
       (match vtkShader.ShaderType shader with
        | vtkShader.Vertex => 11
        | vtkShader.Fragment => 12
        | _ => 13
        end)
       (vtkShader.ShaderType shader) (vtkShader.Source shader) "")
  | _ => (false, blank_shader)
  end.

Definition does_not_compile (h : History) : bool * vtkShader.t :=
  match last_call h with
  | Shader_Compile shader =>
    (false,
     vtkShader.mk 0 (vtkShader.ShaderType shader) (vtkShader.Source shader)
                  "0(2) : error C0000: syntax error")
  | _ => (false, blank_shader)
  end.

Definition cleans_up (h : History) : vtkShader.t :=
  match last_call h with
  | Shader_Cleanup shader =>
    vtkShader.mk 0 (vtkShader.ShaderType shader) (vtkShader.Source shader)
                 (vtkShader.Error shader)
  | _ => blank_shader
  end.

(** A driver on which everything succeeds: programs get the name 1, links
    succeed, every attribute sits at location 3 and every uniform at 5. *)
Definition healthy : Driver :=
  {| created_program := fun _ => 1;
     program_iv := fun _ => 1;
     shader_iv := fun _ => 0;
     info_log := fun _ => "";
     attrib_location := fun _ => 3;
     uniform_location := fun _ => 5;
     compile_result := compiles;
     cleanup_result := cleans_up |}.

(** A driver on which no program links; the log it reports is 12
    characters long. *)
Definition unlinkable : Driver :=
  {| created_program := fun _ => 1;
     program_iv := fun _ => 0;
     shader_iv := fun _ => 12;
     info_log := fun _ => "link failed";
     attrib_location := fun _ => -1;
     uniform_location := fun _ => -1;
     compile_result := compiles;
     cleanup_result := cleans_up |}.

(** The same driver with a compiler that rejects every shader. *)
Definition rejecting : Driver :=
  {| created_program := fun _ => 1;
     program_iv := fun _ => 1;
     shader_iv := fun _ => 0;
     info_log := fun _ => "";
     attrib_location := fun _ => 3;
     uniform_location := fun _ => 5;
     compile_result := does_not_compile;
     cleanup_result := cleans_up |}.

Definition vertex_11 : vtkShader.t :=
  vtkShader.mk 11 vtkShader.Vertex "void main() {}" "".
Definition vertex_21 : vtkShader.t :=
  vtkShader.mk 21 vtkShader.Vertex "void main() {}" "".
Definition fragment_12 : vtkShader.t :=
  vtkShader.mk 12 vtkShader.Fragment "void main() {}" "".

(** A program whose two shaders were attached and which was linked. *)
Definition linked_program : t :=
  snd (Link healthy
         (snd (AttachShader healthy fragment_12
                 (snd (AttachShader healthy vertex_11 (New blank_shader)))))).

Definition some_window : vtkOpenGLRenderWindow :=
  {| LastShaderBound := None |}.

(** A program that had a vertex shader attached by hand and then released
    its graphics resources: the native program is gone, the recorded vertex
    handle is still there. *)
Definition released_program : t :=
  match
    run usual_tags healthy
        [OpAttachShader vertex_11;
         OpReleaseGraphicsResources 0 (Some some_window)]
        (New blank_shader)
  with
  | Some p => p
  | None => New blank_shader
  end.

(** A program on which an attach has just been refused. *)
Definition refused_program : t :=
  snd (AttachShader healthy blank_shader (New blank_shader)).

(** A program that went through CompileShader on the healthy driver. *)
Definition compiled_program : t :=
  snd (CompileShader healthy (New blank_shader)).

(** The program after one attach of a vertex shader. *)
Definition program_with_vertex_11 : t :=
  snd (AttachShader healthy vertex_11 (New blank_shader)).

Definition line_break : string := String newline "".

Definition four_line_source : string :=
  "void main()" +:+ line_break +:+ "{" +:+ line_break
    +:+ "  gl_Position = vertexMC" +:+ line_break +:+ "}" +:+ line_break.

(** A new program whose vertex shader has been given a source. *)
Definition program_with_source : t :=
  set_VertexShader
    (vtkShader.mk 0 vtkShader.Vertex four_line_source "")
    (New blank_shader).

(** [vtkTypeTraits<int>]. *)
#[export] Instance int_traits : vtkTypeTraits Z := 6.

Definition no_ints : Container Z := {| elements := []; data := 0 |}.

Definition geometry_13 : vtkShader.t :=
  vtkShader.mk 13 vtkShader.Geometry "void main() {}" "".

(** A driver that cannot allocate a program: [glCreateProgram] returns 0. *)
Definition exhausted : Driver :=
  {| created_program := fun _ => 0;
     program_iv := fun _ => 1;
     shader_iv := fun _ => 0;
     info_log := fun _ => "";
     attrib_location := fun _ => 3;
     uniform_location := fun _ => 5;
     compile_result := compiles;
     cleanup_result := cleans_up |}.

(** A compiler that accepts vertex shaders only. *)
Definition compiles_vertex_only (h : History) : bool * vtkShader.t :=
  match last_call h with
  | Shader_Compile shader =>
    match vtkShader.ShaderType shader with
    | vtkShader.Vertex => compiles h
    | _ => does_not_compile h
    end
  | _ => (false, blank_shader)
  end.

Definition fragment_rejecting : Driver :=
  {| created_program := fun _ => 1;
     program_iv := fun _ => 1;
     shader_iv := fun _ => 0;
     info_log := fun _ => "";
     attrib_location := fun _ => 3;
     uniform_location := fun _ => 5;
     compile_result := compiles_vertex_only;
     cleanup_result := cleans_up |}.

(** A driver that knows no attribute and no uniform. *)
Definition nameless : Driver :=
  {| created_program := fun _ => 1;
     program_iv := fun _ => 1;
     shader_iv := fun _ => 0;
     info_log := fun _ => "";
     attrib_location := fun _ => -1;
     uniform_location := fun _ => -1;
     compile_result := compiles;
     cleanup_result := cleans_up |}.

(** A new program whose two shaders have been given a source. *)
Definition program_with_sources : t :=
  set_FragmentShader
    (vtkShader.mk 0 vtkShader.Fragment four_line_source "")
    program_with_source.

(** A window whose cache remembers program [n] as the last one bound. *)
Definition window_showing (n : nat) : vtkOpenGLRenderWindow :=
  {| LastShaderBound := Some n |}.

Definition three_ints : Container Z := {| elements := [1; 2; 3]; data := 4096 |}.

(** The tag of an element type [vtkTypeTraits] does not know. *)
Definition untagged : vtkTypeTraits bool := -1.

Definition two_flags : Container bool :=
  {| elements := [true; false]; data := 8192 |}.

(** The program after a vertex shader was attached on the unlinkable
    driver. *)
Definition unlinkable_program : t :=
  snd (AttachShader unlinkable vertex_11 (New blank_shader)).

(** ** The 1-indexed listing the specification describes *)

(** The lines numbered from [first] on, one per line. *)
Fixpoint number_lines (first : Z) (lines : list string) : string :=
  match lines with
  | [] => ""
  | line :: rest =>
    show_int first +:+ ": " +:+ line +:+ String newline ""
      +:+ number_lines (first + 1) rest
  end.

(** The lines put back together, each closed by a line break. *)
Fixpoint join_lines (lines : list string) : string :=
  match lines with
  | [] => ""
  | line :: rest => line +:+ String newline "" +:+ join_lines rest
  end.

Fixpoint has_newline (s : string) : bool :=
  match s with
  | EmptyString => false
  | String c rest => Ascii.eqb c newline || has_newline rest
  end.

Fixpoint ends_with_newline (s : string) : bool :=
  match s with
  | EmptyString => false
  | String c EmptyString => Ascii.eqb c newline
  | String _ rest => ends_with_newline rest
  end.

(** A text with its last line closed: unchanged when it is empty or ends
    with a line break already. *)
Definition closed_text (s : string) : string :=
  match s with
  | EmptyString => ""
  | _ => if ends_with_newline s then s else s +:+ String newline ""
  end.

(** The handle the program has recorded as attached for a shader type. *)
Definition recorded_handle (type : vtkShader.Type_) (p : t) : Z :=
  match type with
  | vtkShader.Vertex => VertexShaderHandle p
  | vtkShader.Fragment => FragmentShaderHandle p
  | _ => 0
  end.

(** ** Frames and invariants *)

(** The members that can write [Bound]. *)
Definition writes_Bound (op : Op) : bool :=
  match op with
  | OpBind | OpRelease | OpReleaseGraphicsResources _ _ => true
  | _ => false
  end.

(** The members that only resolve names and upload values write nothing
    but the error string and the history. *)
Definition quiet (p p' : t) : Prop :=
  Handle p' = Handle p /\ Linked p' = Linked p /\ Bound p' = Bound p
  /\ Compiled p' = Compiled p /\ Attributes p' = Attributes p
  /\ VertexShaderHandle p' = VertexShaderHandle p
  /\ FragmentShaderHandle p' = FragmentShaderHandle p.

(** A linked program holds a native handle, and the attribute map holds
    nothing. *)
Definition well_formed (p : t) : Prop :=
  (Linked p = true -> Handle p <> 0) /\ Attributes p = ∅.

(** How one call may move the handle, [Linked] and the attribute map. *)
Definition tame (p p' : t) : Prop :=
  (Linked p' = true ->
     (Linked p = true /\ Handle p' = Handle p) \/ Handle p' <> 0)
  /\ (Attributes p' = Attributes p \/ Attributes p' = ∅).

(** * Properties *)

Section Properties.

Context (tags : TypeTags) (drv : Driver).

(** ** Casts *)

Lemma cast_GLuint_range x : 0 <= cast_GLuint x < 2 ^ 32.
Proof. unfold cast_GLuint. apply Z.mod_pos_bound. lia. Qed.

Lemma cast_int_of_GLuint_nonzero x :
  cast_GLuint x <> 0 -> cast_int (cast_GLuint x) <> 0.
Proof.
  intros Hx. pose proof (cast_GLuint_range x) as Hr.
  unfold cast_int.
  destruct (Z_lt_ge_dec (cast_GLuint x) (2 ^ 31)) as [Hlt | Hge].
  - rewrite Z.mod_small by lia. lia.
  - replace (cast_GLuint x + 2 ^ 31)
      with (cast_GLuint x - 2 ^ 31 + 1 * 2 ^ 32) by lia.
    rewrite Z.mod_add by lia. rewrite Z.mod_small by lia. lia.
Qed.

Lemma cast_int_small x : - 2 ^ 31 <= x < 2 ^ 31 -> cast_int x = x.
Proof. intros H. unfold cast_int. rewrite Z.mod_small by lia. lia. Qed.

Ltac by_cases_on_eqb :=
  repeat match goal with
         | |- context [?a =? ?b] => destruct (Z.eqb_spec a b)
         end.

(** Case analysis on every test of a member's body. *)
Ltac every_branch :=
  repeat match goal with
         | |- context [if ?c then _ else _] => destruct c eqn:?
         | |- context [match vtkShader.ShaderType ?s with _ => _ end] =>
           destruct (vtkShader.ShaderType s) eqn:?
         end.

Ltac eqb_facts :=
  repeat match goal with
         | H : (_ =? _) = true |- _ => apply Z.eqb_eq in H
         | H : (_ =? _) = false |- _ => apply Z.eqb_neq in H
         end.

(** ** What each member leaves alone *)

Lemma quiet_refl p : quiet p p.
Proof. repeat split. Qed.

Lemma FindAttributeArray_quiet name p :
  quiet p (snd (FindAttributeArray drv name p)).
Proof. unfold FindAttributeArray. every_branch; repeat split. Qed.

Lemma FindUniform_quiet name p : quiet p (snd (FindUniform drv name p)).
Proof. unfold FindUniform. every_branch; repeat split. Qed.

Lemma EnableAttributeArray_quiet name p :
  quiet p (snd (EnableAttributeArray drv name p)).
Proof.
  unfold EnableAttributeArray.
  pose proof (FindAttributeArray_quiet name p) as H.
  destruct (FindAttributeArray drv name p) as [location p1].
  every_branch; exact H.
Qed.

Lemma DisableAttributeArray_quiet name p :
  quiet p (snd (DisableAttributeArray drv name p)).
Proof.
  unfold DisableAttributeArray.
  pose proof (FindAttributeArray_quiet name p) as H.
  destruct (FindAttributeArray drv name p) as [location p1].
  every_branch; exact H.
Qed.

Lemma UseAttributeArray_quiet name offset stride ty size normalize p :
  quiet p (snd (UseAttributeArray tags drv name offset stride ty size
                                  normalize p)).
Proof.
  unfold UseAttributeArray.
  pose proof (FindAttributeArray_quiet name p) as H.
  destruct (FindAttributeArray drv name p) as [location p1].
  every_branch; exact H.
Qed.

Lemma SetAttributeArrayInternal_quiet name buffer ty size normalize p :
  quiet p (snd (SetAttributeArrayInternal tags drv name buffer ty size
                                          normalize p)).
Proof.
  unfold SetAttributeArrayInternal.
  destruct (ty =? -1); [repeat split|].
  pose proof (FindAttributeArray_quiet name p) as H.
  destruct (FindAttributeArray drv name p) as [location p1].
  every_branch; exact H.
Qed.

Lemma SetAttributeArray_quiet V (traits : vtkTypeTraits V) name
    (array : Container V) size normalize p :
  quiet p (snd (SetAttributeArray tags drv name array size normalize p)).
Proof.
  unfold SetAttributeArray.
  destruct (empty array); [repeat split|].
  apply SetAttributeArrayInternal_quiet.
Qed.

Lemma SetUniform_quiet setter name p :
  quiet p (snd (SetUniform drv setter name p)).
Proof.
  unfold SetUniform.
  pose proof (FindUniform_quiet name p) as H.
  destruct (FindUniform drv name p) as [location p1].
  every_branch; exact H.
Qed.

(** AttachShader never writes [Bound], [Compiled] or the attribute map; it
    never raises [Linked], and when [Linked] survives the handle does too. *)
Lemma AttachShader_frame shader p :
  let p' := snd (AttachShader drv shader p) in
  Bound p' = Bound p /\ Compiled p' = Compiled p
  /\ Attributes p' = Attributes p
  /\ (Linked p' = true -> Linked p = true /\ Handle p' = Handle p)
  /\ (Handle p <> 0 -> Handle p' = Handle p).
Proof.
  unfold AttachShader. every_branch; cbn; repeat split; try discriminate;
    try tauto; try congruence; eqb_facts; intros; congruence.
Qed.

Lemma AttachShader_success shader p p' :
  AttachShader drv shader p = (true, p') ->
  Linked p' = false /\ Handle p' <> 0.
Proof.
  unfold AttachShader.
  destruct (vtkShader.Handle shader =? 0); [discriminate|].
  destruct (vtkShader.Type_eqb _ _); [discriminate|].
  destruct (Z.eqb_spec (Handle p) 0) as [Hz | Hnz].
  - destruct (Z.eqb_spec (cast_GLuint (created_program drv
                 (issued (emit glCreateProgram p)))) 0) as [|Hc];
      [discriminate|].
    apply cast_int_of_GLuint_nonzero in Hc.
    destruct (vtkShader.ShaderType shader); try discriminate;
      cbn; destruct (negb _); intros [= <-]; cbn; auto.
  - destruct (vtkShader.ShaderType shader); try discriminate;
      cbn; destruct (negb _); intros [= <-]; cbn; auto.
Qed.

Lemma DetachShader_frame shader p :
  let p' := snd (DetachShader shader p) in
  Handle p' = Handle p /\ Bound p' = Bound p /\ Compiled p' = Compiled p
  /\ Attributes p' = Attributes p
  /\ (Linked p' = true -> Linked p = true).
Proof.
  unfold DetachShader. every_branch; cbn; repeat split; try discriminate;
    tauto.
Qed.


Lemma Link_frame p :
  let p' := snd (Link drv p) in
  Handle p' = Handle p /\ Bound p' = Bound p /\ Compiled p' = Compiled p
  /\ VertexShaderHandle p' = VertexShaderHandle p
  /\ FragmentShaderHandle p' = FragmentShaderHandle p
  /\ (Attributes p' = Attributes p \/ Attributes p' = ∅)
  /\ (Linked p' = true -> Linked p = true \/ Handle p <> 0)
  /\ (Linked p' = true -> fst (Link drv p) = true).
Proof.
  unfold Link. destruct (Linked p) eqn:Hl; [cbn; tauto|].
  destruct (Z.eqb_spec (Handle p) 0).
  - cbn. rewrite Hl. repeat split; auto; discriminate.
  - every_branch; cbn; rewrite ?Hl; repeat split; auto; discriminate.
Qed.



Lemma Bind_frame p :
  let p' := snd (Bind drv p) in
  Handle p' = Handle p /\ Compiled p' = Compiled p
  /\ (Attributes p' = Attributes p \/ Attributes p' = ∅)
  /\ (Linked p' = true -> Linked p = true \/ Handle p <> 0).
Proof.
  unfold Bind. destruct (Linked p) eqn:Hl; cbn.
  - tauto.
  - pose proof (Link_frame p) as H. cbn in H. rewrite Hl in H.
    destruct (Link drv p) as [linked q]. cbn in H.
    destruct linked; cbn; tauto.
Qed.

Lemma CompileVertexShader_frame p :
  let p' := snd (CompileVertexShader drv p) in
  quiet p p' /\ Error p' = Error p /\ FragmentShader p' = FragmentShader p.
Proof.
  unfold CompileVertexShader. destruct (compile_result drv _).
  repeat split.
Qed.

Lemma CompileFragmentShader_frame p :
  let p' := snd (CompileFragmentShader drv p) in
  quiet p p' /\ Error p' = Error p /\ VertexShader p' = VertexShader p.
Proof.
  unfold CompileFragmentShader. destruct (compile_result drv _).
  repeat split.
Qed.

(** ** Release *)

(** ReleaseGraphicsResources on an OpenGL window always returns, with the
    handle, [Bound] and [Compiled] reset; [Linked] can only survive on an
    object that was linked without a handle. *)
Lemma ReleaseGraphicsResources_result this renWin p :
  exists p' renWin',
    ReleaseGraphicsResources drv this (Some renWin) p = Some (p', renWin')
    /\ Handle p' = 0 /\ Bound p' = false /\ Compiled p' = false
    /\ Attributes p' = Attributes p
    /\ (Linked p' = true -> Linked p = true /\ Handle p = 0).
Proof.
  unfold ReleaseGraphicsResources.
  eexists. eexists. split; [reflexivity|].
  destruct (Compiled (Release p)) eqn:Hc.
  - pose proof (DetachShader_frame (VertexShader (Release p)) (Release p))
      as Ha.
    destruct (DetachShader (VertexShader (Release p)) (Release p)) as [ra a].
    pose proof (DetachShader_frame (FragmentShader a) a) as Hb.
    destruct (DetachShader (FragmentShader a) a) as [rb b].
    cbn in Ha, Hb.
    destruct Ha as (Ha1 & Ha2 & Ha3 & Ha4 & Ha5).
    destruct Hb as (Hb1 & Hb2 & Hb3 & Hb4 & Hb5).
    cbn. destruct (Z.eqb_spec (Handle b) 0) as [Hz | Hnz]; cbn.
    + split_and?; try congruence; intros Hl; split; [auto | congruence].
    + split_and?; try congruence; discriminate.
  - cbn. destruct (Z.eqb_spec (Handle p) 0) as [Hz | Hnz]; cbn.
    + cbn in Hc. repeat split; auto.
    + cbn in Hc. repeat split; auto; discriminate.
Qed.

(** On an object that is neither compiled nor holds a handle the member
    reduces to [Release]. *)
Lemma ReleaseGraphicsResources_released this renWin p :
  Compiled p = false -> Handle p = 0 ->
  option_map fst (ReleaseGraphicsResources drv this (Some renWin) p)
  = Some (Release p).
Proof.
  intros Hc Hh. unfold ReleaseGraphicsResources. cbn. rewrite Hc. cbn.
  rewrite Hh. reflexivity.
Qed.

(** ** Invariants of the reachable states *)

Lemma tame_well_formed p p' : well_formed p -> tame p p' -> well_formed p'.
Proof.
  intros [Hl Ha] [Hl' Ha']. split.
  - intros H. destruct (Hl' H) as [[H1 H2] | H1]; [|exact H1].
    rewrite H2. auto.
  - destruct Ha' as [-> | ->]; auto.
Qed.

Lemma tame_trans p q r : tame p q -> tame q r -> tame p r.
Proof.
  intros [Hl1 Ha1] [Hl2 Ha2]. split.
  - intros H. destruct (Hl2 H) as [[H1 H2] | H1]; [|auto].
    destruct (Hl1 H1) as [[H3 H4] | H3]; [left | right]; split_and?;
      congruence.
  - destruct Ha2 as [-> | ->]; auto.
Qed.

Lemma unchanged_tame p p' :
  Handle p' = Handle p -> Linked p' = Linked p ->
  Attributes p' = Attributes p -> tame p p'.
Proof.
  intros Hh Hl Ha. split; [|auto]. intros H. left. split; congruence.
Qed.

Lemma quiet_tame p p' : quiet p p' -> tame p p'.
Proof. intros (Hh & Hl & _ & _ & Ha & _). now apply unchanged_tame. Qed.

Lemma AttachShader_tame shader p : tame p (snd (AttachShader drv shader p)).
Proof.
  pose proof (AttachShader_frame shader p) as (_ & _ & Ha & Hl & _).
  split; [|auto]. intros H. left. auto.
Qed.

Lemma DetachShader_tame shader p : tame p (snd (DetachShader shader p)).
Proof.
  pose proof (DetachShader_frame shader p) as (Hh & _ & _ & Ha & Hl).
  split; [|auto]. intros H. left. auto.
Qed.

Lemma Link_tame p : tame p (snd (Link drv p)).
Proof.
  pose proof (Link_frame p) as (Hh & _ & _ & _ & _ & Ha & Hl & _).
  split; [|auto]. intros H. cbn in *.
  destruct (Hl H) as [H1 | H1]; [left; auto | right; congruence].
Qed.

Lemma Bind_tame p : tame p (snd (Bind drv p)).
Proof.
  pose proof (Bind_frame p) as (Hh & _ & Ha & Hl).
  split; [|auto]. intros H. cbn in *.
  destruct (Hl H) as [H1 | H1]; [left; auto | right; congruence].
Qed.

Lemma emit_tame e p : tame p (emit e p).
Proof. apply quiet_tame. repeat split. Qed.

Lemma set_Compiled_tame v p : tame p (set_Compiled v p).
Proof. split; [intros H; left; split; [exact H | reflexivity] | now left]. Qed.

Lemma CompileShader_tame p : tame p (snd (CompileShader drv p)).
Proof.
  unfold CompileShader.
  pose proof (CompileVertexShader_frame p) as (H1 & _).
  destruct (CompileVertexShader drv p) as [c1 p1]. cbn in H1.
  apply quiet_tame in H1.
  destruct c1; cbn;
    [|eapply tame_trans; [exact H1|]; apply quiet_tame; repeat split].
  pose proof (CompileFragmentShader_frame p1) as (H2 & _).
  destruct (CompileFragmentShader drv p1) as [c2 p2]. cbn in H2.
  apply quiet_tame in H2. pose proof (tame_trans _ _ _ H1 H2) as H12.
  destruct c2; cbn;
    [|eapply tame_trans; [exact H12|]; apply quiet_tame; repeat split].
  pose proof (AttachShader_tame (VertexShader p2) p2) as H3.
  destruct (AttachShader drv (VertexShader p2) p2) as [a3 p3]. cbn in H3.
  pose proof (tame_trans _ _ _ H12 H3) as H13.
  destruct a3; cbn;
    [|eapply tame_trans; [exact H13|]; apply emit_tame].
  pose proof (AttachShader_tame (FragmentShader p3) p3) as H4.
  destruct (AttachShader drv (FragmentShader p3) p3) as [a4 p4]. cbn in H4.
  pose proof (tame_trans _ _ _ H13 H4) as H14.
  destruct a4; cbn;
    [|eapply tame_trans; [exact H14|]; apply emit_tame].
  pose proof (Link_tame p4) as H5.
  destruct (Link drv p4) as [l5 p5]. cbn in H5.
  pose proof (tame_trans _ _ _ H14 H5) as H15.
  destruct l5; cbn;
    [|eapply tame_trans; [exact H15|]; apply emit_tame].
  eapply tame_trans; [exact H15|]. apply set_Compiled_tame.
Qed.

Lemma step_tame op p p' : step tags drv op p = Some p' -> tame p p'.
Proof.
  destruct op; cbn; try (intros [= <-]).
  - apply AttachShader_tame.
  - apply DetachShader_tame.
  - apply Link_tame.
  - apply Bind_tame.
  - now apply unchanged_tame.
  - destruct win as [renWin|]; [|discriminate].
    destruct (ReleaseGraphicsResources_result this renWin p)
      as (q & w & -> & Hh & _ & _ & Ha & Hl).
    cbn. intros [= <-]. split; [|auto].
    intros H. left. destruct (Hl H). split; congruence.
  - apply CompileShader_tame.
  - unfold SetCompiled. destruct (negb _);
      [apply set_Compiled_tame | apply quiet_tame, quiet_refl].
  - apply quiet_tame. repeat split.
  - apply quiet_tame, EnableAttributeArray_quiet.
  - apply quiet_tame, DisableAttributeArray_quiet.
  - apply quiet_tame, UseAttributeArray_quiet.
  - apply quiet_tame, SetAttributeArray_quiet.
  - apply quiet_tame, SetUniform_quiet.
  - apply quiet_tame. repeat split.
  - apply quiet_tame. repeat split.
  - apply quiet_tame. repeat split.
Qed.

Lemma reachable_well_formed p : reachable tags drv p -> well_formed p.
Proof.
  induction 1 as [fresh | op p p' _ IH Hstep].
  - split; [discriminate | reflexivity].
  - eapply tame_well_formed; [exact IH|]. eapply step_tame; eassumption.
Qed.

Lemma run_reachable ops : forall p p',
  reachable tags drv p -> run tags drv ops p = Some p' ->
  reachable tags drv p'.
Proof.
  induction ops as [|op rest IH]; intros p p' Hp; cbn.
  - intros [= <-]. exact Hp.
  - destruct (step tags drv op p) as [q|] eqn:Hstep; [|discriminate].
    apply IH. eapply reachable_step; eassumption.
Qed.


(** ** The linked flag *)


(** ** ReleaseGraphicsResources *)

(** C7 (as amended): on every reachable program, and so on one that never
    had a shader attached, ReleaseGraphicsResources called with a window
    that is an OpenGL render window returns and leaves handle = 0,
    linked = false, bound = false, compiled = false; a second call right
    after it, again with an OpenGL render window, returns as well, leaves
    the same four values and does nothing but issue the native "use no
    program" call again. *)
Theorem release_graphics_resources_idempotent
    (p : t) (this this' : nat) (renWin renWin' : vtkOpenGLRenderWindow) :
  reachable tags drv p ->
  exists p1 w1,
    ReleaseGraphicsResources drv this (Some renWin) p = Some (p1, w1)
    /\ (Handle p1 = 0 /\ Linked p1 = false /\ Bound p1 = false
        /\ Compiled p1 = false)
    /\ exists p2 w2,
        ReleaseGraphicsResources drv this' (Some renWin') p1 = Some (p2, w2)
        /\ (Handle p2 = 0 /\ Linked p2 = false /\ Bound p2 = false
            /\ Compiled p2 = false)
        /\ p2 = emit (glUseProgram 0) p1.
Proof.
  intros Hreach. destruct (reachable_well_formed p Hreach) as [Hwf _].
  destruct (ReleaseGraphicsResources_result this renWin p)
    as (p1 & w1 & Hfirst & Hh & Hb & Hc & _ & Hl).
  assert (Hl1 : Linked p1 = false).
  { destruct (Linked p1); [|reflexivity].
    destruct (Hl eq_refl) as [Hlp Hhp]. destruct (Hwf Hlp Hhp). }
  exists p1, w1. split; [exact Hfirst|]. split; [auto|].
  pose proof (ReleaseGraphicsResources_released this' renWin' p1 Hc Hh)
    as Hsecond.
  destruct (ReleaseGraphicsResources drv this' (Some renWin') p1)
    as [[p2 w2]|]; [|discriminate].
  cbn in Hsecond. injection Hsecond as ->.
  exists (Release p1), w2. split; [reflexivity|].
  split; [cbn; auto|].
  unfold Release. destruct p1; cbn in *; subst; reflexivity.
Qed.

(** ** The attribute map *)

(** C3 (as amended): lookups do not use the attribute map.
    FindAttributeArray leaves the map as it was, and on a linked program
    every lookup of a non-empty name, a repeated one too, issues the native
    location query; the map is cleared by every Link() that links, and it is
    empty in every reachable state, before and after a successful Link(). *)
Theorem attribute_lookups_bypass_the_map (name : string) (p : t) :
  Attributes (snd (FindAttributeArray drv name p)) = Attributes p
  /\ (name <> "" -> Linked p = true ->
      let query := glGetAttribLocation (cast_GLuint (Handle p)) name in
      let p1 := snd (FindAttributeArray drv name p) in
      issued p1 = issued p ++ [query]
      /\ issued (snd (FindAttributeArray drv name p1))
         = issued p ++ [query; query])
  /\ (forall p', Linked p = false -> Link drv p = (true, p') ->
                 Attributes p' = ∅)
  /\ (reachable tags drv p ->
      Attributes p = ∅
      /\ forall p', Link drv p = (true, p') -> Attributes p' = ∅).
Proof.
  split_and?.
  - apply FindAttributeArray_quiet.
  - intros Hname Hlinked. cbn zeta.
    assert (Hlookup : forall q, Linked q = true ->
              Linked (snd (FindAttributeArray drv name q)) = true
              /\ Handle (snd (FindAttributeArray drv name q)) = Handle q
              /\ issued (snd (FindAttributeArray drv name q))
                 = issued q ++ [glGetAttribLocation (cast_GLuint (Handle q))
                                                    name]).
    { intros q Hq. unfold FindAttributeArray. rewrite Hq.
      destruct (String.eqb_spec name ""); [contradiction|]. cbn.
      destruct (_ =? -1); cbn; auto. }
    destruct (Hlookup p Hlinked) as (Hl1 & Hh1 & Hi1).
    destruct (Hlookup _ Hl1) as (_ & _ & Hi2).
    split; [exact Hi1|].
    rewrite Hi2, Hi1, Hh1, <- app_assoc. reflexivity.
  - intros p' Hl. unfold Link. rewrite Hl.
    every_branch; try discriminate. intros [= <-]. reflexivity.
  - intros Hreach. destruct (reachable_well_formed p Hreach) as [_ Hempty].
    split; [exact Hempty|]. intros p' HL.
    destruct (Link_frame p) as (_ & _ & _ & _ & _ & Ha & _).
    rewrite HL in Ha. cbn in Ha. destruct Ha; congruence.
Qed.

(** ** DetachShader *)

(** C10 (as amended): for a shader with a non-zero handle and type Vertex
    or Fragment, DetachShader on a program whose native handle is 0 does not
    return at the not-initialized check; when the handle recorded for the
    shader's type differs from the shader's (as it does when the recorded
    handle is 0), it returns false, issues no call, and the not-attached
    message overwrites the not-initialized one. *)
Theorem detach_without_program_handle (shader : vtkShader.t) (p : t) :
  vtkShader.Handle shader <> 0 ->
  vtkShader.ShaderType shader = vtkShader.Vertex
    \/ vtkShader.ShaderType shader = vtkShader.Fragment ->
  Handle p = 0 ->
  recorded_handle (vtkShader.ShaderType shader) p <> vtkShader.Handle shader ->
  DetachShader shader p =
    (false,
     set_Error "The supplied shader was not attached to this program."
       (set_Error "This shader prorgram has not been initialized yet." p))
  /\ GetError (snd (DetachShader shader p))
     = "The supplied shader was not attached to this program."
  /\ issued (snd (DetachShader shader p)) = issued p.
Proof.
  intros Hshader Htype Hprog Hrecorded. unfold DetachShader.
  destruct (Z.eqb_spec (vtkShader.Handle shader) 0) as [|_]; [contradiction|].
  rewrite Hprog.
  destruct Htype as [Hty | Hty]; rewrite Hty in *; cbn in *.
  - destruct (Z.eqb_spec (VertexShaderHandle p) (vtkShader.Handle shader));
      [contradiction|]. cbn. auto.
  - destruct (Z.eqb_spec (FragmentShaderHandle p) (vtkShader.Handle shader));
      [contradiction|]. cbn. auto.
Qed.

(** ** The source listing *)

Lemma append_cons c a b : String c a +:+ b = String c (a +:+ b).
Proof. reflexivity. Qed.

Lemma append_nil_r a : a +:+ "" = a.
Proof. induction a as [|c a IH]; [reflexivity|]. now rewrite append_cons, IH. Qed.

Lemma append_assoc a b c : (a +:+ b) +:+ c = a +:+ b +:+ c.
Proof.
  induction a as [|x a IH]; [reflexivity|].
  now rewrite !append_cons, IH.
Qed.

(** As long as the counter does not leave the range of [int], the loop
    writes the lines numbered upwards from the counter's first value. *)
Lemma fold_listing_step lines : forall sstm lineNum,
  0 <= lineNum -> lineNum + Z.of_nat (length lines) <= INT_MAX ->
  fst (fold_left listing_step lines (sstm, lineNum))
  = sstm +:+ number_lines lineNum lines.
Proof.
  induction lines as [|line rest IH]; intros sstm lineNum Hlo Hhi.
  - cbn. now rewrite append_nil_r.
  - cbn [fold_left listing_step number_lines].
    rewrite cast_int_small.
    2:{ cbn [length] in Hhi. unfold INT_MAX in Hhi. lia. }
    rewrite IH.
    + now rewrite !append_assoc.
    + lia.
    + cbn [length] in Hhi. lia.
Qed.

Lemma listing_numbers_from_one source :
  Z.of_nat (length (getlines source)) < INT_MAX ->
  listing source = number_lines 1 (getlines source).
Proof.
  intros H. unfold listing. rewrite fold_listing_step by lia. reflexivity.
Qed.

Lemma has_newline_append a b :
  has_newline (a +:+ b) = has_newline a || has_newline b.
Proof.
  induction a as [|c a IH]; [reflexivity|].
  rewrite append_cons. cbn. now rewrite IH, orb_assoc.
Qed.

Lemma no_newline_no_ending a : has_newline a = false -> ends_with_newline a = false.
Proof.
  induction a as [|c a IH]; [reflexivity|]. cbn.
  intros [Hc Ha]%orb_false_iff. destruct a; auto.
Qed.

Lemma ends_with_newline_append a rest :
  ends_with_newline (a +:+ String newline rest)
  = match rest with
    | EmptyString => true
    | _ => ends_with_newline rest
    end.
Proof.
  induction a as [|c a IH].
  - cbn. destruct rest; reflexivity.
  - rewrite append_cons.
    change (ends_with_newline (String c (a +:+ String newline rest)))
      with (match a +:+ String newline rest with
            | EmptyString => Ascii.eqb c newline
            | _ => ends_with_newline (a +:+ String newline rest)
            end).
    rewrite <- IH. destruct a; reflexivity.
Qed.

Lemma closed_text_append a rest :
  closed_text (a +:+ String newline rest)
  = a +:+ String newline "" +:+ closed_text rest.
Proof.
  assert (Hne : exists c s, a +:+ String newline rest = String c s).
  { destruct a; [cbn | rewrite append_cons]; eauto. }
  destruct Hne as (c & s & Heq).
  unfold closed_text at 1. rewrite Heq, <- Heq.
  rewrite ends_with_newline_append.
  destruct rest as [|r rest].
  - reflexivity.
  - unfold closed_text.
    destruct (ends_with_newline (String r rest)).
    + reflexivity.
    + rewrite append_assoc. reflexivity.
Qed.

(** The lines [getline] yields are the text cut at its line breaks. *)
Lemma getlines_from_spec stream : forall aline,
  has_newline aline = false ->
  join_lines (getlines_from aline stream) = closed_text (aline +:+ stream)
  /\ Forall (fun line => has_newline line = false)
            (getlines_from aline stream).
Proof.
  induction stream as [|c rest IH]; intros aline Haline.
  - rewrite append_nil_r. destruct aline as [|a aline]; [now split|].
    split; [|now repeat constructor].
    unfold closed_text. rewrite (no_newline_no_ending _ Haline).
    cbn [getlines_from join_lines]. now rewrite append_nil_r.
  - cbn [getlines_from]. destruct (Ascii.eqb_spec c newline) as [-> | Hc].
    + destruct (IH "" eq_refl) as [Hjoin Hall]. split.
      * cbn [join_lines]. rewrite Hjoin, closed_text_append. reflexivity.
      * constructor; assumption.
    + assert (Hnext : has_newline (aline +:+ String c "") = false).
      { rewrite has_newline_append, Haline. cbn.
        destruct (Ascii.eqb_spec c newline); [contradiction | reflexivity]. }
      destruct (IH _ Hnext) as [Hjoin Hall]. split; [|exact Hall].
      rewrite Hjoin, append_assoc. reflexivity.
Qed.

Lemma getlines_spec source :
  join_lines (getlines source) = closed_text source
  /\ Forall (fun line => has_newline line = false) (getlines source).
Proof. apply (getlines_from_spec source ""). reflexivity. Qed.

(** ** CompileShader *)

Lemma CompileShader_outcome p :
  (exists p1 p2 p3 p4 p5,
      CompileVertexShader drv p = (true, p1)
      /\ CompileFragmentShader drv p1 = (true, p2)
      /\ AttachShader drv (VertexShader p2) p2 = (true, p3)
      /\ AttachShader drv (FragmentShader p3) p3 = (true, p4)
      /\ Link drv p4 = (true, p5)
      /\ CompileShader drv p = (1, set_Compiled true p5))
  \/ (fst (CompileShader drv p) = 0
      /\ Compiled (snd (CompileShader drv p)) = Compiled p).
Proof.
  unfold CompileShader.
  pose proof (CompileVertexShader_frame p) as ((_ & _ & _ & H1 & _) & _).
  destruct (CompileVertexShader drv p) as [c1 p1] eqn:E1. cbn in H1.
  destruct c1; cbn; [|right; split; [reflexivity | exact H1]].
  pose proof (CompileFragmentShader_frame p1) as ((_ & _ & _ & H2 & _) & _).
  destruct (CompileFragmentShader drv p1) as [c2 p2] eqn:E2. cbn in H2.
  destruct c2; cbn; [|right; split; [reflexivity | congruence]].
  pose proof (AttachShader_frame (VertexShader p2) p2) as (_ & H3 & _).
  destruct (AttachShader drv (VertexShader p2) p2) as [a3 p3] eqn:E3. cbn in H3.
  destruct a3; cbn; [|right; split; [reflexivity | congruence]].
  pose proof (AttachShader_frame (FragmentShader p3) p3) as (_ & H4 & _).
  destruct (AttachShader drv (FragmentShader p3) p3) as [a4 p4] eqn:E4. cbn in H4.
  destruct a4; cbn; [|right; split; [reflexivity | congruence]].
  pose proof (Link_frame p4) as (_ & _ & H5 & _).
  destruct (Link drv p4) as [l5 p5] eqn:E5. cbn in H5.
  destruct l5; cbn; [|right; split; [reflexivity | congruence]].
  left. exists p1, p2, p3, p4, p5. auto 10.
Qed.

(** C6: when the vertex shader's Compile() fails, CompileShader returns 0
    after exactly three calls: the vertex shader's Compile(), the report of
    that shader's own error, and the report of its source as a listing of
    its lines numbered from 1, the lines being the source cut at its line
    breaks.  Nothing of AttachShader or Link happens: no native call is
    issued, handle, recorded shader handles, linked, bound, compiled, the
    attribute map and the error string are the ones before the call, and the
    fragment shader is not touched.  In general CompileShader either returns 0 and leaves compiled
    as it was, or both compiles, both attaches and the link succeeded, in
    which case it returns 1 with compiled set.  (The line counter is an
    [int]; the listing is stated for sources of fewer than [INT_MAX]
    lines.) *)
Theorem compile_shader_stops_at_failed_vertex_compile (p : t) :
  (fst (CompileVertexShader drv p) = false ->
   let p1 := snd (CompileVertexShader drv p) in
   let shader := VertexShader p1 in
   let lines := getlines (vtkShader.Source shader) in
   Z.of_nat (length lines) < INT_MAX ->
   CompileShader drv p =
     (0, emit (vtkErrorMacro (number_lines 1 lines))
              (emit (vtkErrorMacro (vtkShader.Error shader)) p1))
   /\ issued (snd (CompileShader drv p)) =
        issued p ++ [Shader_Compile (VertexShader p);
                     vtkErrorMacro (vtkShader.Error shader);
                     vtkErrorMacro (number_lines 1 lines)]
   /\ List.filter is_native (issued (snd (CompileShader drv p)))
      = List.filter is_native (issued p)
   /\ join_lines lines = closed_text (vtkShader.Source shader)
   /\ Forall (fun line => has_newline line = false) lines
   /\ quiet p (snd (CompileShader drv p))
   /\ GetError (snd (CompileShader drv p)) = GetError p
   /\ FragmentShader (snd (CompileShader drv p)) = FragmentShader p)
  /\ ((exists p1 p2 p3 p4 p5,
          CompileVertexShader drv p = (true, p1)
          /\ CompileFragmentShader drv p1 = (true, p2)
          /\ AttachShader drv (VertexShader p2) p2 = (true, p3)
          /\ AttachShader drv (FragmentShader p3) p3 = (true, p4)
          /\ Link drv p4 = (true, p5)
          /\ CompileShader drv p = (1, set_Compiled true p5))
      \/ (fst (CompileShader drv p) = 0
          /\ Compiled (snd (CompileShader drv p)) = Compiled p)).
Proof.
  split; [|apply CompileShader_outcome].
  unfold CompileShader, CompileVertexShader.
  destruct (compile_result drv (issued (emit (Shader_Compile (VertexShader p)) p)))
    as [compiled shader].
  cbn. intros -> Hlines. cbn.
  unfold report_failed_compile. cbn.
  rewrite (listing_numbers_from_one _ Hlines).
  destruct (getlines_spec (vtkShader.Source shader)) as [Hjoin Hall].
  split_and?; try reflexivity; try assumption.
  - now rewrite <- !app_assoc.
  - rewrite <- !app_assoc. rewrite List.filter_app. cbn. apply app_nil_r.
  - repeat split.
Qed.

(** ** AttachShader *)

(** C5: attaching a shader whose native handle is 0 fails with the
    invalid-shader message; no native program is created: the handle field
    is the one before the call and no call is issued. *)
Theorem attach_rejects_shader_without_handle (shader : vtkShader.t) (p : t) :
  vtkShader.Handle shader = 0 ->
  AttachShader drv shader p =
    (false, set_Error "Shader object was not initialized, cannot attach it." p)
  /\ Handle (snd (AttachShader drv shader p)) = Handle p
  /\ issued (snd (AttachShader drv shader p)) = issued p.
Proof.
  intros Hzero. unfold AttachShader. rewrite Hzero. cbn. auto.
Qed.

(** C4: on a program that holds a native handle and has a shader of the
    same type recorded, attaching a second valid Vertex (or Fragment) shader
    issues the native detach of the recorded handle, then the native attach
    of the new one, records the new handle, succeeds and leaves the program
    unlinked. *)
Theorem attach_replaces_shader_of_same_type (shader : vtkShader.t) (p : t) :
  Handle p <> 0 ->
  vtkShader.Handle shader <> 0 ->
  vtkShader.ShaderType shader = vtkShader.Vertex
    \/ vtkShader.ShaderType shader = vtkShader.Fragment ->
  recorded_handle (vtkShader.ShaderType shader) p <> 0 ->
  let r := AttachShader drv shader p in
  fst r = true
  /\ issued (snd r) =
       issued p ++
         [glDetachShader (cast_GLuint (Handle p))
            (cast_GLuint (recorded_handle (vtkShader.ShaderType shader) p));
          glAttachShader (cast_GLuint (Handle p))
            (cast_GLuint (vtkShader.Handle shader))]
  /\ recorded_handle (vtkShader.ShaderType shader) (snd r)
       = vtkShader.Handle shader
  /\ Linked (snd r) = false
  /\ Handle (snd r) = Handle p.
Proof.
  intros Hprog Hshader Htype Hrecorded. unfold AttachShader.
  destruct (Z.eqb_spec (vtkShader.Handle shader) 0) as [|_]; [contradiction|].
  destruct (Z.eqb_spec (Handle p) 0) as [|_]; [contradiction|].
  destruct Htype as [Hty | Hty]; rewrite Hty in *; cbn in *.
  - destruct (Z.eqb_spec (VertexShaderHandle p) 0) as [|_]; [contradiction|].
    cbn. rewrite <- app_assoc. auto.
  - destruct (Z.eqb_spec (FragmentShaderHandle p) 0) as [|_]; [contradiction|].
    cbn. rewrite <- app_assoc. auto.
Qed.

(** C8 (as amended): success does not clear the last error.  A successful
    AttachShader, Link or Bind leaves the error string exactly as it was. *)
Theorem success_keeps_last_error (p p' : t) :
  (forall shader, AttachShader drv shader p = (true, p') ->
                  GetError p' = GetError p)
  /\ (Link drv p = (true, p') -> GetError p' = GetError p)
  /\ (Bind drv p = (true, p') -> GetError p' = GetError p).
Proof.
  assert (HLink : forall q q', Link drv q = (true, q') ->
                               GetError q' = GetError q).
  { intros q q'. unfold Link.
    destruct (Linked q); [now intros [= <-]|].
    by_cases_on_eqb; try discriminate.
    - destruct (1 <? _); discriminate.
    - now intros [= <-]. }
  split; [|split].
  - intros shader. unfold AttachShader.
    destruct (vtkShader.Handle shader =? 0); [discriminate|].
    destruct (vtkShader.Type_eqb _ _); [discriminate|].
    destruct (Handle p =? 0).
    + destruct (cast_GLuint _ =? 0); [discriminate|].
      destruct (vtkShader.ShaderType shader); try discriminate;
        cbn; destruct (negb _); intros [= <-]; reflexivity.
    + destruct (vtkShader.ShaderType shader); try discriminate;
        cbn; destruct (negb _); intros [= <-]; reflexivity.
  - apply HLink.
  - unfold Bind. destruct (Linked p) eqn:Hl.
    + cbn. now intros [= <-].
    + destruct (Link drv p) as [linked q] eqn:HL.
      destruct linked; [|discriminate]. cbn. intros [= <-].
      cbn. exact (HLink _ _ HL).
Qed.

(** ** Name resolution *)

(** C2 (as amended): with an empty name or on a program that is not linked,
    FindAttributeArray and FindUniform return -1 and leave the object as it
    was: no native call is issued and the error field is not written. *)
Theorem find_fails_fast_without_touching_state (name : string) (p : t) :
  name = "" \/ Linked p = false ->
  FindAttributeArray drv name p = (-1, p)
  /\ FindUniform drv name p = (-1, p)
  /\ issued (snd (FindAttributeArray drv name p)) = issued p
  /\ issued (snd (FindUniform drv name p)) = issued p
  /\ GetError (snd (FindAttributeArray drv name p)) = GetError p
  /\ GetError (snd (FindUniform drv name p)) = GetError p.
Proof.
  intros H. unfold FindAttributeArray, FindUniform.
  assert (Hguard : String.eqb name "" || negb (Linked p) = true).
  { destruct H as [-> | ->]; [reflexivity | apply orb_true_r]. }
  rewrite Hguard. cbn. auto 10.
Qed.

(** ** Vertex attribute upload *)

(** C9: SetAttributeArray on an empty sequence returns false with the
    empty-array message and issues no call; the object is otherwise the one
    before the call, so neither the type tag nor the upload path had any
    effect. *)
Theorem set_attribute_array_refuses_empty
    (V : Type) (traits : vtkTypeTraits V) (name : string)
    (array : Container V) (tupleSize : Z) (normalize : NormalizeOption)
    (p : t) :
  elements array = [] ->
  SetAttributeArray tags drv name array tupleSize normalize p =
    (false,
     set_Error ("Refusing to upload empty array for attribute " +:+ name +:+ ".")
               p)
  /\ issued (snd (SetAttributeArray tags drv name array tupleSize normalize p))
     = issued p.
Proof.
  intros Hempty. unfold SetAttributeArray, empty. rewrite Hempty. cbn. auto.
Qed.

End Properties.

(** * Further properties of the members *)

Section FurtherProperties.

Context (tags : TypeTags) (drv : Driver).

Ltac branches :=
  repeat match goal with
         | |- context [if ?c then _ else _] => destruct c eqn:?
         | |- context [match vtkShader.ShaderType ?s with _ => _ end] =>
           destruct (vtkShader.ShaderType s) eqn:?
         end.

Ltac eqb_to_eq :=
  repeat match goal with
         | H : (_ =? _) = true |- _ => apply Z.eqb_eq in H
         | H : (_ =? _) = false |- _ => apply Z.eqb_neq in H
         end.

(** ** Link and Bind *)

(** X1: on a reachable program that holds no native handle, Link and Bind
    both return false with the not-initialized message and issue no call. *)
Theorem link_and_bind_need_a_handle (p : t) :
  reachable tags drv p ->
  Handle p = 0 ->
  Link drv p =
    (false,
     set_Error
       "Program has not been initialized, and/or does not have shaders." p)
  /\ Bind drv p =
       (false,
        set_Error
          "Program has not been initialized, and/or does not have shaders." p).
Proof.
  intros Hreach Hzero.
  destruct (reachable_well_formed tags drv p Hreach) as [Hhandle _].
  assert (Hunlinked : Linked p = false).
  { destruct (Linked p); [|reflexivity]. destruct (Hhandle eq_refl Hzero). }
  unfold Bind, Link. rewrite Hunlinked, Hzero. cbn. auto.
Qed.

(** X2: on a linked program Bind succeeds by issuing the native "use
    program" call alone; after Release the program is unbound, and a second
    Bind succeeds again without a native link: the three calls are use,
    use-none, use. *)
Theorem bind_release_bind_does_not_relink (p : t) :
  Linked p = true ->
  let use := glUseProgram (cast_GLuint (Handle p)) in
  let p1 := snd (Bind drv p) in
  let p2 := Release p1 in
  let r := Bind drv p2 in
  fst (Bind drv p) = true /\ isBound p1 = true
  /\ isBound p2 = false /\ Linked p2 = true
  /\ fst r = true /\ isBound (snd r) = true /\ Linked (snd r) = true
  /\ issued (snd r) = issued p ++ [use; glUseProgram 0; use].
Proof.
  intros Hlinked. unfold Bind, Release. rewrite Hlinked. cbn.
  rewrite Hlinked. cbn. rewrite <- !app_assoc. auto 10.
Qed.

(** X3: in every state a program can reach through its public members, a
    linked program holds a native handle. *)
Theorem linked_program_holds_handle (p : t) :
  reachable tags drv p -> Linked p = true -> Handle p <> 0.
Proof.
  intros Hreach. apply (reachable_well_formed tags drv p Hreach).
Qed.

Lemma CompileShader_keeps_handle p :
  Handle p <> 0 -> Handle (snd (CompileShader drv p)) = Handle p.
Proof.
  intros Hp. unfold CompileShader.
  pose proof (CompileVertexShader_frame drv p) as ((H1 & _) & _).
  destruct (CompileVertexShader drv p) as [c1 p1]. cbn in H1.
  destruct c1; cbn; [|exact H1].
  pose proof (CompileFragmentShader_frame drv p1) as ((H2 & _) & _).
  destruct (CompileFragmentShader drv p1) as [c2 p2]. cbn in H2.
  destruct c2; cbn; [|congruence].
  pose proof (AttachShader_frame drv (VertexShader p2) p2) as (_&_&_&_& H3).
  destruct (AttachShader drv (VertexShader p2) p2) as [a3 p3]. cbn in H3.
  assert (E3 : Handle p3 = Handle p) by (rewrite H3; congruence).
  destruct a3; cbn; [|exact E3].
  pose proof (AttachShader_frame drv (FragmentShader p3) p3) as (_&_&_&_& H4).
  destruct (AttachShader drv (FragmentShader p3) p3) as [a4 p4]. cbn in H4.
  assert (E4 : Handle p4 = Handle p) by (rewrite H4; congruence).
  destruct a4; cbn; [|exact E4].
  pose proof (Link_frame drv p4) as (H5 & _).
  destruct (Link drv p4) as [l5 p5]. cbn in H5.
  destruct l5; cbn; congruence.
Qed.

(** X4: a program that holds a native handle keeps that very handle through
    every public member except ReleaseGraphicsResources, which resets it to
    0; in particular no member creates a second native program while one is
    held. *)
Theorem handle_kept_until_release (op : Op) (p p' : t) :
  step tags drv op p = Some p' ->
  Handle p <> 0 ->
  Handle p' = Handle p
  \/ (Handle p' = 0
      /\ exists this win, op = OpReleaseGraphicsResources this win).
Proof.
  intros Hstep Hp. destruct op; cbn in Hstep;
    try (injection Hstep as <-).
  - left. now apply AttachShader_frame.
  - left. apply DetachShader_frame.
  - left. apply Link_frame.
  - left. apply Bind_frame.
  - left. reflexivity.
  - right. destruct win as [renWin|]; [|discriminate].
    destruct (ReleaseGraphicsResources_result drv this renWin p)
      as (q & w & Hr & Hh & _).
    rewrite Hr in Hstep. cbn in Hstep. injection Hstep as <-.
    split; [exact Hh | eauto].
  - left. now apply CompileShader_keeps_handle.
  - left. unfold SetCompiled. destruct (negb _); reflexivity.
  - left. reflexivity.
  - left. apply EnableAttributeArray_quiet.
  - left. apply DisableAttributeArray_quiet.
  - left. apply UseAttributeArray_quiet.
  - left. apply SetAttributeArray_quiet.
  - left. apply SetUniform_quiet.
  - left. reflexivity.
  - left. reflexivity.
  - left. reflexivity.
Qed.

(** X5: when the driver reports link status 0 for an unlinked program that
    holds a handle, Link returns false and leaves the program unlinked, its
    attribute map and its handle as they were.  It asks for the length of
    the log with [glGetShaderiv] on the program's handle; only when that
    length exceeds 1 does it fetch the log and make it the error string,
    otherwise the error string is left alone. *)
Theorem failed_link_leaves_program_unlinked (p : t) :
  Linked p = false ->
  Handle p <> 0 ->
  let h := cast_GLuint (Handle p) in
  cast_int (program_iv drv
              (issued p ++ [glLinkProgram h; glGetProgramiv h GL_LINK_STATUS]))
    = 0 ->
  let asked :=
    issued p ++ [glLinkProgram h; glGetProgramiv h GL_LINK_STATUS;
                 glGetShaderiv h GL_INFO_LOG_LENGTH] in
  let length := cast_int (shader_iv drv asked) in
  let p' := snd (Link drv p) in
  fst (Link drv p) = false
  /\ Linked p' = false /\ Handle p' = Handle p
  /\ Attributes p' = Attributes p
  /\ (1 < length ->
      issued p' = asked ++ [glGetShaderInfoLog h length]
      /\ GetError p' = info_log drv (issued p'))
  /\ (length <= 1 -> issued p' = asked /\ GetError p' = GetError p).
Proof.
  intros Hunlinked Hhandle. cbn zeta. intros Hstatus.
  unfold Link. rewrite Hunlinked.
  destruct (Z.eqb_spec (Handle p) 0) as [|_]; [contradiction|].
  cbn. rewrite <- !app_assoc. cbn. rewrite Hstatus. cbn.
  destruct (Z.ltb_spec 1 (cast_int (shader_iv drv
              (issued p ++ [glLinkProgram (cast_GLuint (Handle p));
                            glGetProgramiv (cast_GLuint (Handle p))
                                           GL_LINK_STATUS;
                            glGetShaderiv (cast_GLuint (Handle p))
                                          GL_INFO_LOG_LENGTH]))))
    as [Hlong | Hshort]; cbn; rewrite ?Hunlinked, <- ?app_assoc; cbn;
    split_and?; auto; intros; try lia; auto.
Qed.

(** ** AttachShader and DetachShader *)

(** What a successful attach establishes. *)
Lemma AttachShader_true shader p p' :
  AttachShader drv shader p = (true, p') ->
  vtkShader.Handle shader <> 0
  /\ (vtkShader.ShaderType shader = vtkShader.Vertex
      \/ vtkShader.ShaderType shader = vtkShader.Fragment)
  /\ recorded_handle (vtkShader.ShaderType shader) p'
     = vtkShader.Handle shader
  /\ Handle p' <> 0 /\ Linked p' = false /\ GetError p' = GetError p
  /\ exists before,
       issued p' =
         before ++ [glAttachShader (cast_GLuint (Handle p'))
                                   (cast_GLuint (vtkShader.Handle shader))].
Proof.
  intros H. destruct (AttachShader_success drv _ _ _ H) as [Hl Hh].
  split_and?; try assumption; revert H; unfold AttachShader;
    branches; try discriminate; intros [= <-]; eqb_to_eq; cbn;
    auto; try congruence; eexists; reflexivity.
Qed.

(** X6: AttachShader succeeds exactly when the shader has a non-zero
    handle, is a Vertex or a Fragment shader, and the program holds a
    native handle or the driver hands out a non-zero one; on success the
    shader's handle is the one recorded for its type, the program holds a
    handle, is unlinked, and the native attach is the last call issued. *)
Theorem attach_succeeds_exactly_when (shader : vtkShader.t) (p : t) :
  (fst (AttachShader drv shader p) = true <->
   vtkShader.Handle shader <> 0
   /\ (vtkShader.ShaderType shader = vtkShader.Vertex
       \/ vtkShader.ShaderType shader = vtkShader.Fragment)
   /\ (Handle p <> 0
       \/ cast_GLuint (created_program drv (issued p ++ [glCreateProgram]))
          <> 0))
  /\ (fst (AttachShader drv shader p) = true ->
      let p' := snd (AttachShader drv shader p) in
      recorded_handle (vtkShader.ShaderType shader) p'
        = vtkShader.Handle shader
      /\ Handle p' <> 0 /\ Linked p' = false
      /\ List.last (issued p') glCreateProgram
         = glAttachShader (cast_GLuint (Handle p'))
                          (cast_GLuint (vtkShader.Handle shader))).
Proof.
  split.
  - unfold AttachShader. branches; eqb_to_eq; cbn in *; split;
      try discriminate; try tauto;
      try (intros (? & [?|?] & [?|?]); congruence);
      try (intros _; split_and?; auto; congruence);
      try (intros (_ & [Ht | Ht] & _); rewrite Ht in *; discriminate).
  - intros Hok. cbn zeta.
    destruct (AttachShader drv shader p) as [ok p'] eqn:E.
    cbn in Hok. subst ok.
    destruct (AttachShader_true _ _ _ E)
      as (_ & _ & Hrec & Hh & Hl & _ & before & Hissued).
    cbn. split_and?; auto. rewrite Hissued. apply last_last.
Qed.

(** X7: a Geometry shader, even with a valid handle, is refused with the
    unknown-type message, but only after the lazy creation step: on a
    program without a handle the native program has been created and is
    kept, although the call returns false. *)
Theorem attach_geometry_creates_program_then_fails
    (shader : vtkShader.t) (p : t) :
  vtkShader.Handle shader <> 0 ->
  vtkShader.ShaderType shader = vtkShader.Geometry ->
  Handle p = 0 ->
  cast_GLuint (created_program drv (issued p ++ [glCreateProgram])) <> 0 ->
  let r := AttachShader drv shader p in
  fst r = false
  /\ GetError (snd r)
     = "Unknown shader type encountered - this should not happen."
  /\ Handle (snd r)
     = cast_int (cast_GLuint (created_program drv
                                (issued p ++ [glCreateProgram])))
  /\ Handle (snd r) <> 0
  /\ issued (snd r) = issued p ++ [glCreateProgram]
  /\ VertexShaderHandle (snd r) = VertexShaderHandle p
  /\ FragmentShaderHandle (snd r) = FragmentShaderHandle p.
Proof.
  intros Hshader Htype Hzero Hcreated. unfold AttachShader.
  destruct (Z.eqb_spec (vtkShader.Handle shader) 0) as [|_]; [contradiction|].
  rewrite Htype, Hzero. cbn.
  destruct (Z.eqb_spec (cast_GLuint (created_program drv
              (issued p ++ [glCreateProgram]))) 0) as [|_]; [contradiction|].
  cbn. split_and?; auto. now apply cast_int_of_GLuint_nonzero.
Qed.

(** X8: when the program has no handle and the driver cannot create one,
    AttachShader of an otherwise valid shader fails with the
    could-not-create message after the single native call, and records
    nothing. *)
Theorem attach_fails_when_program_creation_fails
    (shader : vtkShader.t) (p : t) :
  vtkShader.Handle shader <> 0 ->
  vtkShader.ShaderType shader <> vtkShader.Unknown ->
  Handle p = 0 ->
  cast_GLuint (created_program drv (issued p ++ [glCreateProgram])) = 0 ->
  AttachShader drv shader p =
    (false,
     set_Error "Could not create shader program." (emit glCreateProgram p)).
Proof.
  intros Hshader Htype Hzero Hcreated. unfold AttachShader.
  destruct (Z.eqb_spec (vtkShader.Handle shader) 0) as [|_]; [contradiction|].
  destruct (vtkShader.ShaderType shader); try contradiction;
    cbn; rewrite Hzero; cbn; rewrite Hcreated; reflexivity.
Qed.

(** X9: DetachShader succeeds exactly when the shader has a non-zero
    handle, is a Vertex or a Fragment shader, and its handle is the one
    recorded for its type.  A DetachShader that fails issues no call and
    writes nothing but the error string. *)
Theorem detach_succeeds_exactly_when (shader : vtkShader.t) (p : t) :
  (fst (DetachShader shader p) = true <->
   vtkShader.Handle shader <> 0
   /\ (vtkShader.ShaderType shader = vtkShader.Vertex
       \/ vtkShader.ShaderType shader = vtkShader.Fragment)
   /\ recorded_handle (vtkShader.ShaderType shader) p
      = vtkShader.Handle shader)
  /\ (fst (DetachShader shader p) = false ->
      issued (snd (DetachShader shader p)) = issued p
      /\ quiet p (snd (DetachShader shader p))).
Proof.
  split.
  - unfold DetachShader.
    destruct (Z.eqb_spec (vtkShader.Handle shader) 0) as [Hz | Hnz];
      [cbn; split; [discriminate | tauto]|].
    destruct (vtkShader.ShaderType shader) eqn:Hty; cbn;
      try (split; [discriminate | intros (_ & [?|?] & _); discriminate]).
    + destruct (Handle p =? 0); cbn;
        destruct (Z.eqb_spec (VertexShaderHandle p) (vtkShader.Handle shader));
        cbn; split; try discriminate; try tauto; auto.
    + destruct (Handle p =? 0); cbn;
        destruct (Z.eqb_spec (FragmentShaderHandle p)
                             (vtkShader.Handle shader));
        cbn; split; try discriminate; try tauto; auto.
  - unfold DetachShader. branches; cbn; try discriminate;
      intros _; repeat split.
Qed.

(** X10: attach and detach compose.  After a successful attach, detaching
    the same shader succeeds with one native detach on the program's handle,
    clears the handle recorded for the shader's type and leaves the error
    string alone; detaching it once more fails with the not-attached
    message and issues no call. *)
Theorem detach_undoes_attach (shader : vtkShader.t) (p p1 : t) :
  AttachShader drv shader p = (true, p1) ->
  let p2 := snd (DetachShader shader p1) in
  fst (DetachShader shader p1) = true
  /\ recorded_handle (vtkShader.ShaderType shader) p2 = 0
  /\ Handle p2 = Handle p1 /\ Linked p2 = false
  /\ GetError p2 = GetError p1
  /\ issued p2 =
       issued p1 ++ [glDetachShader (cast_GLuint (Handle p1))
                                    (cast_GLuint (vtkShader.Handle shader))]
  /\ DetachShader shader p2 =
       (false,
        set_Error "The supplied shader was not attached to this program." p2).
Proof.
  intros Hattach.
  destruct (AttachShader_true _ _ _ Hattach)
    as (Hshader & Htype & Hrec & Hhandle & _).
  cbn zeta. unfold DetachShader.
  destruct (Z.eqb_spec (vtkShader.Handle shader) 0) as [|_]; [contradiction|].
  destruct (Z.eqb_spec (Handle p1) 0) as [|_]; [contradiction|].
  destruct Htype as [Hty | Hty]; rewrite Hty in *; cbn in Hrec |- *;
    rewrite Hrec, Z.eqb_refl; cbn;
    destruct (Z.eqb_spec (vtkShader.Handle shader) 0) as [|_];
    try contradiction;
    destruct (Z.eqb_spec (Handle p1) 0) as [|_]; try contradiction;
    cbn;
    destruct (Z.eqb_spec 0 (vtkShader.Handle shader)) as [E|_];
    try (symmetry in E; contradiction); cbn; split_and?; auto;
    destruct (vtkShader.Handle shader) eqn:E;
    first [congruence | reflexivity].
Qed.

(** ** The setters *)

Lemma find_fails_fast_guard name p :
  name = "" \/ Linked p = false ->
  FindAttributeArray drv name p = (-1, p)
  /\ FindUniform drv name p = (-1, p).
Proof.
  intros H. unfold FindAttributeArray, FindUniform.
  assert (Hguard : String.eqb name "" || negb (Linked p) = true).
  { destruct H as [-> | ->]; [reflexivity | apply orb_true_r]. }
  now rewrite Hguard.
Qed.


(** X11: on a program that is not linked, or with an empty name, every
    attribute and uniform setter returns false with its own message and
    leaves everything else as it was: no location query and no upload is
    issued.  (SetAttributeArrayInternal gets that far for a type tag other
    than -1.) *)
Theorem setters_refuse_unlinked_program (name : string) (p : t) :
  name = "" \/ Linked p = false ->
  EnableAttributeArray drv name p =
    (false,
     set_Error ("Could not enable attribute " +:+ name +:+ ". No such attribute.")
               p)
  /\ DisableAttributeArray drv name p =
       (false,
        set_Error
          ("Could not disable attribute " +:+ name +:+ ". No such attribute.") p)
  /\ (forall offset stride elementType elementTupleSize normalize,
        UseAttributeArray tags drv name offset stride elementType
                          elementTupleSize normalize p =
          (false,
           set_Error
             ("Could not use attribute " +:+ name +:+ ". No such attribute.") p))
  /\ (forall buffer type tupleSize normalize,
        type <> -1 ->
        SetAttributeArrayInternal tags drv name buffer type tupleSize
                                  normalize p =
          (false,
           set_Error
             ("Could not set attribute " +:+ name +:+ ". No such attribute.") p))
  /\ (forall setter,
        SetUniform drv setter name p =
          (false,
           set_Error ("Could not set uniform " +:+ name +:+ ". No such uniform.")
                     p)).
Proof.
  intros H.
  destruct (find_fails_fast_guard name p H) as [Ha Hu].
  unfold EnableAttributeArray, DisableAttributeArray, UseAttributeArray,
    SetAttributeArrayInternal, SetUniform.
  rewrite Ha, Hu. cbn. split_and?; auto.
  intros buffer type tupleSize normalize Htype.
  destruct (Z.eqb_spec type (-1)); [contradiction | reflexivity].
Qed.

(** X12: on a linked program and for a non-empty name, a uniform setter
    issues the location query on the program's handle and then uploads
    exactly when the location it got is not -1: with -1 it returns false
    with its own message (which replaces the lookup's) and stops after the
    query; otherwise it returns true, issues the one upload at that location
    and does not touch the error string. *)
Theorem uniform_uploaded_exactly_when_found
    (setter : UniformSetter) (name : string) (p : t) :
  Linked p = true ->
  name <> "" ->
  let query := glGetUniformLocation (cast_GLuint (Handle p)) name in
  let location := cast_int (uniform_location drv (issued p ++ [query])) in
  (location = -1 ->
   SetUniform drv setter name p =
     (false,
      set_Error ("Could not set uniform " +:+ name +:+ ". No such uniform.")
                (emit query p)))
  /\ (location <> -1 ->
      SetUniform drv setter name p =
        (true, emit (glUniform location (upload_of setter)) (emit query p))).
Proof.
  intros Hlinked Hname. cbn zeta. unfold SetUniform, FindUniform.
  rewrite Hlinked. destruct (String.eqb_spec name ""); [contradiction|].
  cbn. split; intros Hloc.
  - rewrite Hloc. reflexivity.
  - destruct (_ =? -1) eqn:E;
      [apply Z.eqb_eq in E; contradiction | cbn; rewrite E; reflexivity].
Qed.

(** X13: the same for the attribute setters.  On a linked program and for a
    non-empty name, EnableAttributeArray, DisableAttributeArray and
    UseAttributeArray issue the attribute query and then their native call
    exactly when the location is not -1; UseAttributeArray passes the tuple
    size, the OpenGL type of the element tag, the normalization flag, the
    stride as a [GLsizei] and the offset into the bound buffer. *)
Theorem attribute_call_issued_exactly_when_found (name : string) (p : t) :
  Linked p = true ->
  name <> "" ->
  let query := glGetAttribLocation (cast_GLuint (Handle p)) name in
  let location := cast_int (attrib_location drv (issued p ++ [query])) in
  (location = -1 ->
   EnableAttributeArray drv name p =
     (false,
      set_Error
        ("Could not enable attribute " +:+ name +:+ ". No such attribute.")
        (emit query p))
   /\ DisableAttributeArray drv name p =
        (false,
         set_Error
           ("Could not disable attribute " +:+ name +:+ ". No such attribute.")
           (emit query p))
   /\ forall offset stride elementType elementTupleSize normalize,
        UseAttributeArray tags drv name offset stride elementType
                          elementTupleSize normalize p =
          (false,
           set_Error
             ("Could not use attribute " +:+ name +:+ ". No such attribute.")
             (emit query p)))
  /\ (location <> -1 ->
      EnableAttributeArray drv name p =
        (true,
         emit (glEnableVertexAttribArray (cast_GLuint location))
              (emit query p))
      /\ DisableAttributeArray drv name p =
           (true,
            emit (glDisableVertexAttribArray (cast_GLuint location))
                 (emit query p))
      /\ forall offset stride elementType elementTupleSize normalize,
           UseAttributeArray tags drv name offset stride elementType
                             elementTupleSize normalize p =
             (true,
              emit (glVertexAttribPointer (cast_GLuint location)
                      elementTupleSize (convertTypeToGL tags elementType)
                      (GL_normalized normalize) (cast_int stride)
                      (BUFFER_OFFSET offset))
                   (emit query p))).
Proof.
  intros Hlinked Hname. cbn zeta.
  unfold EnableAttributeArray, DisableAttributeArray, UseAttributeArray,
    FindAttributeArray.
  rewrite Hlinked. destruct (String.eqb_spec name ""); [contradiction|].
  cbn. split; intros Hloc.
  - rewrite Hloc. cbn. auto.
  - destruct (_ =? -1) eqn:E;
      [apply Z.eqb_eq in E; contradiction | cbn; rewrite E; auto].
Qed.

(** X14: SetAttributeArray on a non-empty container.  When the element
    type's tag is -1 the upload is refused with the unrecognized-type
    message before any lookup, so even on a linked program no call is
    issued.  Otherwise, on a linked program with a non-empty name whose
    attribute is found, it returns true after the query and one
    [glVertexAttribPointer] that carries the tuple size, the OpenGL type of
    the tag, stride 0 and the address of the first element. *)
Theorem set_attribute_array_uploads_client_memory
    (V : Type) (traits : vtkTypeTraits V) (name : string)
    (array : Container V) (tupleSize : Z) (normalize : NormalizeOption)
    (p : t) :
  elements array <> [] ->
  (@VTKTypeID V traits = -1 ->
   SetAttributeArray tags drv name array tupleSize normalize p =
     (false,
      set_Error ("Unrecognized data type for attribute " +:+ name +:+ ".") p))
  /\ (@VTKTypeID V traits <> -1 ->
      Linked p = true -> name <> "" ->
      let query := glGetAttribLocation (cast_GLuint (Handle p)) name in
      let location := cast_int (attrib_location drv (issued p ++ [query])) in
      location <> -1 ->
      SetAttributeArray tags drv name array tupleSize normalize p =
        (true,
         emit (glVertexAttribPointer (cast_GLuint location) tupleSize
                 (convertTypeToGL tags (@VTKTypeID V traits))
                 (GL_normalized normalize) 0 (ClientMemory (data array)))
              (emit query p))).
Proof.
  intros Hnonempty. unfold SetAttributeArray, empty.
  destruct (elements array) as [|x rest]; [contradiction|].
  unfold SetAttributeArrayInternal. split.
  - intros ->. reflexivity.
  - intros Htype Hlinked Hname. cbn zeta. intros Hloc.
    destruct (Z.eqb_spec (@VTKTypeID V traits) (-1)); [contradiction|].
    unfold FindAttributeArray. rewrite Hlinked.
    destruct (String.eqb_spec name ""); [contradiction|]. cbn.
    destruct (_ =? -1) eqn:E;
      [apply Z.eqb_eq in E; contradiction | cbn; rewrite E; reflexivity].
Qed.

(** ** CompileShader *)

(** X15: when the vertex shader compiles and the fragment shader's
    Compile() fails, CompileShader returns 0 after exactly four calls: the
    two Compile() calls, the report of the fragment shader's own error and
    the report of its source as a listing numbered from 1.  No native call
    is issued and handle, recorded shader handles, linked, bound, compiled,
    the attribute map and the error string are the ones before the call.
    (Stated, like the listing itself, for sources of fewer than [INT_MAX]
    lines.) *)
Theorem compile_shader_stops_at_failed_fragment_compile (p p1 : t) :
  CompileVertexShader drv p = (true, p1) ->
  fst (CompileFragmentShader drv p1) = false ->
  let p2 := snd (CompileFragmentShader drv p1) in
  let shader := FragmentShader p2 in
  let lines := getlines (vtkShader.Source shader) in
  Z.of_nat (length lines) < INT_MAX ->
  CompileShader drv p =
    (0, emit (vtkErrorMacro (number_lines 1 lines))
             (emit (vtkErrorMacro (vtkShader.Error shader)) p2))
  /\ issued (snd (CompileShader drv p)) =
       issued p ++ [Shader_Compile (VertexShader p);
                    Shader_Compile (FragmentShader p);
                    vtkErrorMacro (vtkShader.Error shader);
                    vtkErrorMacro (number_lines 1 lines)]
  /\ List.filter is_native (issued (snd (CompileShader drv p)))
     = List.filter is_native (issued p)
  /\ quiet p (snd (CompileShader drv p))
  /\ GetError (snd (CompileShader drv p)) = GetError p.
Proof.
  intros Hvertex. unfold CompileShader. rewrite Hvertex. cbn.
  revert Hvertex. unfold CompileVertexShader, CompileFragmentShader.
  destruct (compile_result drv
              (issued (emit (Shader_Compile (VertexShader p)) p)))
    as [c1 vs].
  intros [= -> <-]. cbn.
  destruct (compile_result drv _) as [c2 fs]. cbn.
  intros -> Hlines. cbn. unfold report_failed_compile. cbn.
  rewrite (listing_numbers_from_one _ Hlines).
  split_and?; try reflexivity.
  - now rewrite <- !app_assoc.
  - rewrite <- !app_assoc. rewrite List.filter_app. cbn. apply app_nil_r.
  - repeat split.
Qed.

Lemma AttachShader_keeps_shaders shader p :
  VertexShader (snd (AttachShader drv shader p)) = VertexShader p
  /\ FragmentShader (snd (AttachShader drv shader p)) = FragmentShader p.
Proof. unfold AttachShader. branches; split; reflexivity. Qed.

Lemma Link_keeps_shaders p :
  VertexShader (snd (Link drv p)) = VertexShader p
  /\ FragmentShader (snd (Link drv p)) = FragmentShader p.
Proof. unfold Link. branches; split; reflexivity. Qed.

(** A successful attach of a Fragment shader leaves the recorded vertex
    handle alone. *)
Lemma AttachShader_fragment_keeps_vertex shader p p' :
  AttachShader drv shader p = (true, p') ->
  vtkShader.ShaderType shader = vtkShader.Fragment ->
  VertexShaderHandle p' = VertexShaderHandle p.
Proof.
  intros H Hty. revert H. unfold AttachShader. rewrite Hty.
  branches; try discriminate; intros [= <-]; reflexivity.
Qed.

Lemma Link_from_unlinked p p' :
  Linked p = false -> Link drv p = (true, p') ->
  Linked p' = true /\ Attributes p' = ∅ /\ Handle p' = Handle p
  /\ VertexShaderHandle p' = VertexShaderHandle p
  /\ FragmentShaderHandle p' = FragmentShaderHandle p.
Proof.
  intros Hl. unfold Link. rewrite Hl.
  branches; try discriminate. intros [= <-]. repeat split.
Qed.

(** X16: when CompileShader returns 1 the program is compiled and linked,
    holds a native handle, has an empty attribute map, and Bind on it
    succeeds; both owned shaders have a non-zero handle, and as long as they
    still carry the types the constructor gave them, the handles recorded as
    attached are theirs. *)
Theorem compile_shader_success_state (p p' : t) :
  CompileShader drv p = (1, p') ->
  Compiled p' = true /\ Linked p' = true /\ Handle p' <> 0
  /\ Attributes p' = ∅
  /\ fst (Bind drv p') = true
  /\ vtkShader.Handle (VertexShader p') <> 0
  /\ vtkShader.Handle (FragmentShader p') <> 0
  /\ (vtkShader.ShaderType (VertexShader p') = vtkShader.Vertex ->
      vtkShader.ShaderType (FragmentShader p') = vtkShader.Fragment ->
      VertexShaderHandle p' = vtkShader.Handle (VertexShader p')
      /\ FragmentShaderHandle p' = vtkShader.Handle (FragmentShader p')).
Proof.
  intros Hok.
  destruct (CompileShader_outcome drv p)
    as [(p1 & p2 & p3 & p4 & p5 & _ & _ & E3 & E4 & E5 & Hresult) | [Hzero _]];
    [|rewrite Hok in Hzero; discriminate].
  rewrite Hok in Hresult. injection Hresult as ->.
  destruct (AttachShader_true _ _ _ E3) as (Hv & _ & Hrv & _).
  destruct (AttachShader_true _ _ _ E4) as (Hf & _ & Hrf & Hh4 & Hl4 & _).
  destruct (Link_from_unlinked _ _ Hl4 E5) as (Hl5 & Ha5 & Hh5 & Hv5 & Hf5).
  destruct (AttachShader_keeps_shaders (VertexShader p2) p2) as [Sv3 Sf3].
  destruct (AttachShader_keeps_shaders (FragmentShader p3) p3) as [Sv4 Sf4].
  destruct (Link_keeps_shaders p4) as [Sv5 Sf5].
  rewrite E3 in Sv3, Sf3. rewrite E4 in Sv4, Sf4. rewrite E5 in Sv5, Sf5.
  cbn in Sv3, Sf3, Sv4, Sf4, Sv5, Sf5.
  assert (Vs : VertexShader p5 = VertexShader p2) by congruence.
  assert (Fs : FragmentShader p5 = FragmentShader p3) by congruence.
  cbn. split_and?.
  - reflexivity.
  - exact Hl5.
  - congruence.
  - exact Ha5.
  - unfold Bind. cbn. now rewrite Hl5.
  - now rewrite Vs.
  - now rewrite Fs.
  - rewrite Vs, Fs. intros Tv Tf. rewrite Tv in Hrv. rewrite Tf in Hrf.
    cbn in Hrv, Hrf. split; [|congruence].
    rewrite Hv5, (AttachShader_fragment_keeps_vertex _ _ _ E4 Tf). exact Hrv.
Qed.

(** ** ReleaseGraphicsResources *)

(** X17: the teardown of a compiled program whose recorded handles are
    those of its own two shaders.  ReleaseGraphicsResources issues, in this
    order, the native "use no program", the detach of the vertex shader, the
    detach of the fragment shader, Cleanup() of the vertex shader, Cleanup()
    of the fragment shader and the native delete of the program; afterwards
    no handle is left: the program's and both recorded shader handles are
    0. *)
Theorem release_tears_down_compiled_program
    (this : nat) (renWin : vtkOpenGLRenderWindow) (p : t) :
  Compiled p = true ->
  Handle p <> 0 ->
  vtkShader.ShaderType (VertexShader p) = vtkShader.Vertex ->
  vtkShader.ShaderType (FragmentShader p) = vtkShader.Fragment ->
  vtkShader.Handle (VertexShader p) <> 0 ->
  vtkShader.Handle (FragmentShader p) <> 0 ->
  VertexShaderHandle p = vtkShader.Handle (VertexShader p) ->
  FragmentShaderHandle p = vtkShader.Handle (FragmentShader p) ->
  exists p' renWin',
    ReleaseGraphicsResources drv this (Some renWin) p = Some (p', renWin')
    /\ issued p' =
         issued p ++
           [glUseProgram 0;
            glDetachShader (cast_GLuint (Handle p))
                           (cast_GLuint (vtkShader.Handle (VertexShader p)));
            glDetachShader (cast_GLuint (Handle p))
                           (cast_GLuint (vtkShader.Handle (FragmentShader p)));
            Shader_Cleanup (VertexShader p);
            Shader_Cleanup (FragmentShader p);
            glDeleteProgram (cast_GLuint (Handle p))]
    /\ Handle p' = 0 /\ VertexShaderHandle p' = 0
    /\ FragmentShaderHandle p' = 0
    /\ Linked p' = false /\ Bound p' = false /\ Compiled p' = false.
Proof.
  intros Hc Hh Tv Tf Hv Hf Rv Rf.
  unfold ReleaseGraphicsResources. eexists. eexists.
  split; [reflexivity|].
  unfold Release. cbn. rewrite Hc.
  unfold DetachShader. cbn. rewrite Tv. cbn.
  destruct (Z.eqb_spec (vtkShader.Handle (VertexShader p)) 0) as [|_];
    [contradiction|].
  destruct (Z.eqb_spec (Handle p) 0) as [|_]; [contradiction|].
  cbn. rewrite Rv, Z.eqb_refl. cbn. rewrite Tf. cbn.
  destruct (Z.eqb_spec (vtkShader.Handle (FragmentShader p)) 0) as [|_];
    [contradiction|].
  destruct (Z.eqb_spec (Handle p) 0) as [|_]; [contradiction|].
  cbn. rewrite Rf, Z.eqb_refl. cbn.
  destruct (Z.eqb_spec (Handle p) 0) as [|_]; [contradiction|].
  cbn. rewrite <- !app_assoc. cbn. auto 10.
Qed.

(** X18: ReleaseGraphicsResources touches the window's shader cache only
    when the cache's last bound program is this very program, in which case
    it asks the cache to forget it; a cache that remembers another program,
    or none, is handed back unchanged. *)
Theorem release_forgets_only_this_program
    (this : nat) (renWin : vtkOpenGLRenderWindow) (p : t) :
  (LastShaderBound renWin = Some this ->
   exists p',
     ReleaseGraphicsResources drv this (Some renWin) p
     = Some (p', ClearLastShaderBound renWin))
  /\ (LastShaderBound renWin <> Some this ->
      exists p',
        ReleaseGraphicsResources drv this (Some renWin) p
        = Some (p', renWin)).
Proof.
  unfold ReleaseGraphicsResources. split.
  - intros ->. rewrite Nat.eqb_refl. eauto.
  - intros Hother. destruct (LastShaderBound renWin) as [bound|]; [|eauto].
    destruct (Nat.eqb_spec bound this) as [-> | _];
      [contradiction | eauto].
Qed.

(** X20: a released program can be used again.  After
    ReleaseGraphicsResources the program holds no handle, so the next attach
    of a valid Vertex or Fragment shader starts by creating a new native
    program and, when the driver hands one out, succeeds and holds it. *)
Theorem released_program_can_be_reused
    (this : nat) (renWin : vtkOpenGLRenderWindow) (shader : vtkShader.t)
    (p : t) :
  vtkShader.Handle shader <> 0 ->
  vtkShader.ShaderType shader = vtkShader.Vertex
    \/ vtkShader.ShaderType shader = vtkShader.Fragment ->
  exists p1 renWin1,
    ReleaseGraphicsResources drv this (Some renWin) p = Some (p1, renWin1)
    /\ Handle p1 = 0
    /\ (cast_GLuint (created_program drv (issued p1 ++ [glCreateProgram]))
          <> 0 ->
        let r := AttachShader drv shader p1 in
        fst r = true
        /\ Handle (snd r)
           = cast_int (cast_GLuint (created_program drv
                                      (issued p1 ++ [glCreateProgram])))
        /\ Handle (snd r) <> 0
        /\ exists rest,
             issued (snd r) = issued p1 ++ glCreateProgram :: rest).
Proof.
  intros Hshader Htype.
  destruct (ReleaseGraphicsResources_result drv this renWin p)
    as (p1 & w1 & Hr & Hzero & _).
  exists p1, w1. split; [exact Hr|]. split; [exact Hzero|].
  intros Hcreated. cbn zeta. unfold AttachShader.
  destruct (Z.eqb_spec (vtkShader.Handle shader) 0) as [|_]; [contradiction|].
  rewrite Hzero. cbn.
  destruct (Z.eqb_spec (cast_GLuint (created_program drv
              (issued p1 ++ [glCreateProgram]))) 0) as [|_]; [contradiction|].
  apply cast_int_of_GLuint_nonzero in Hcreated.
  destruct Htype as [-> | ->]; cbn; destruct (negb _); cbn;
    rewrite <- ?app_assoc; cbn; split_and?; auto; eexists; reflexivity.
Qed.

(** ** The bound flag *)

Lemma CompileShader_keeps_Bound p :
  Bound (snd (CompileShader drv p)) = Bound p.
Proof.
  unfold CompileShader.
  pose proof (CompileVertexShader_frame drv p) as ((_ & _ & H1 & _) & _).
  destruct (CompileVertexShader drv p) as [c1 p1]. cbn in H1.
  destruct c1; cbn; [|exact H1].
  pose proof (CompileFragmentShader_frame drv p1) as ((_ & _ & H2 & _) & _).
  destruct (CompileFragmentShader drv p1) as [c2 p2]. cbn in H2.
  destruct c2; cbn; [|congruence].
  pose proof (AttachShader_frame drv (VertexShader p2) p2) as (H3 & _).
  destruct (AttachShader drv (VertexShader p2) p2) as [a3 p3]. cbn in H3.
  destruct a3; cbn; [|congruence].
  pose proof (AttachShader_frame drv (FragmentShader p3) p3) as (H4 & _).
  destruct (AttachShader drv (FragmentShader p3) p3) as [a4 p4]. cbn in H4.
  destruct a4; cbn; [|congruence].
  pose proof (Link_frame drv p4) as (_ & H5 & _).
  destruct (Link drv p4) as [l5 p5]. cbn in H5.
  destruct l5; cbn; congruence.
Qed.

Lemma step_keeps_Bound op p p' :
  writes_Bound op = false -> step tags drv op p = Some p' ->
  Bound p' = Bound p.
Proof.
  destruct op; cbn; try discriminate; intros _ [= <-].
  - apply AttachShader_frame.
  - apply DetachShader_frame.
  - apply Link_frame.
  - apply CompileShader_keeps_Bound.
  - unfold SetCompiled. destruct (negb _); reflexivity.
  - reflexivity.
  - apply EnableAttributeArray_quiet.
  - apply DisableAttributeArray_quiet.
  - apply UseAttributeArray_quiet.
  - apply SetAttributeArray_quiet.
  - apply SetUniform_quiet.
  - reflexivity.
  - reflexivity.
  - reflexivity.
Qed.

(** X21: the bound flag is true only between Bind and Release.  A Bind
    that returns true sets it, a Bind that returns false leaves it as it
    was, Release clears it.  No other member ever sets it (attaching,
    detaching and linking leave it alone, so a bound program stays bound
    when it becomes unlinked), and the only members that clear it are
    Release and ReleaseGraphicsResources. *)
Theorem bound_between_bind_and_release :
  (forall p p', Bind drv p = (true, p') -> isBound p' = true)
  /\ (forall p p', Bind drv p = (false, p') -> isBound p' = isBound p)
  /\ (forall p, isBound (Release p) = false)
  /\ (forall op p p',
        step tags drv op p = Some p' ->
        isBound p = false -> isBound p' = true -> op = OpBind)
  /\ (forall op p p',
        step tags drv op p = Some p' ->
        isBound p = true -> isBound p' = false ->
        op = OpRelease
        \/ exists this win, op = OpReleaseGraphicsResources this win).
Proof.
  unfold isBound. split_and?.
  - intros p p'. unfold Bind. destruct (Linked p).
    + cbn. now intros [= <-].
    + destruct (Link drv p) as [[] q]; cbn; [now intros [= <-] | discriminate].
  - intros p p'. unfold Bind. destruct (Linked p); [discriminate|].
    pose proof (Link_frame drv p) as (_ & Hb & _).
    destruct (Link drv p) as [[] q]; cbn in *; [discriminate|].
    now intros [= <-].
  - reflexivity.
  - intros op p p' Hstep Hbefore Hafter.
    destruct (writes_Bound op) eqn:Hop.
    + destruct op; try discriminate; [reflexivity | |]; cbn in Hstep.
      * injection Hstep as <-. cbn in Hafter. discriminate.
      * destruct win as [renWin|]; [|discriminate].
        destruct (ReleaseGraphicsResources_result drv this renWin p)
          as (q & w & Hr & _ & Hb & _).
        rewrite Hr in Hstep. cbn in Hstep. injection Hstep as <-. congruence.
    + pose proof (step_keeps_Bound _ _ _ Hop Hstep). congruence.
  - intros op p p' Hstep Hbefore Hafter.
    destruct (writes_Bound op) eqn:Hop.
    + destruct op; try discriminate; [| left; reflexivity | right; eauto].
      cbn in Hstep. injection Hstep as <-. revert Hafter.
      unfold Bind. destruct (Linked p); [discriminate|].
      pose proof (Link_frame drv p) as (_ & Hb & _).
      destruct (Link drv p) as [[] q]; cbn in *; [discriminate | congruence].
    + pose proof (step_keeps_Bound _ _ _ Hop Hstep). congruence.
Qed.

(** ** The listing *)

Lemma getlines_from_length stream : forall aline,
  (length (getlines_from aline stream)
   <= String.length stream + match aline with EmptyString => 0 | _ => 1 end)%nat.
Proof.
  induction stream as [|c rest IH]; intros aline.
  - destruct aline; cbn; lia.
  - cbn [getlines_from String.length].
    destruct (Ascii.eqb c newline).
    + specialize (IH ""). cbn [length]. cbn in IH. destruct aline; lia.
    + specialize (IH (aline +:+ String c "")).
      destruct (aline +:+ String c "") eqn:E.
      * destruct aline; discriminate.
      * destruct aline; lia.
Qed.

(** X19: the loop reads at most as many lines as the source has
    characters, so for every source shorter than [INT_MAX] characters the
    line counter never leaves the range of [int] and the listing is the
    lines numbered 1, 2, 3, ... *)
Theorem listing_of_source_below_int_max (source : string) :
  Z.of_nat (String.length source) < INT_MAX ->
  (length (getlines source) <= String.length source)%nat
  /\ listing source = number_lines 1 (getlines source).
Proof.
  intros Hshort.
  pose proof (getlines_from_length source "") as Hlen. cbn in Hlen.
  fold (getlines source) in Hlen.
  split; [lia|]. apply listing_numbers_from_one. lia.
Qed.

End FurtherProperties.

(** ** Examples *)

Example getlines_keeps_inner_empty_lines :
  getlines ("a" +:+ line_break +:+ line_break +:+ "b") = ["a"; ""; "b"].
Proof. reflexivity. Qed.

Example getlines_drops_nothing_but_the_closing_break :
  getlines ("a" +:+ line_break) = ["a"]
  /\ getlines ("a" +:+ line_break +:+ line_break) = ["a"; ""]
  /\ getlines "" = [] /\ getlines line_break = [""].
Proof. repeat split. Qed.

Example listing_of_four_lines :
  listing four_line_source =
    "1: void main()" +:+ line_break +:+ "2: {" +:+ line_break
      +:+ "3:   gl_Position = vertexMC" +:+ line_break
      +:+ "4: }" +:+ line_break.
Proof. vm_compute. reflexivity. Qed.

Example linked_program_is_linked :
  Linked linked_program = true
  /\ Handle linked_program = 1
  /\ VertexShaderHandle linked_program = 11
  /\ FragmentShaderHandle linked_program = 12
  /\ issued linked_program =
       [glCreateProgram; glAttachShader 1 11; glAttachShader 1 12;
        glLinkProgram 1; glGetProgramiv 1 GL_LINK_STATUS].
Proof. vm_compute. repeat split. Qed.

Example failed_link_records_the_log :
  let r := Link unlinkable (snd (AttachShader unlinkable vertex_11
                                   (New blank_shader))) in
  fst r = false /\ Linked (snd r) = false
  /\ GetError (snd r) = "link failed"
  /\ issued (snd r) =
       [glCreateProgram; glAttachShader 1 11; glLinkProgram 1;
        glGetProgramiv 1 GL_LINK_STATUS; glGetShaderiv 1 GL_INFO_LOG_LENGTH;
        glGetShaderInfoLog 1 12].
Proof. vm_compute. repeat split. Qed.

Example bind_links_first :
  let r := Bind healthy (snd (AttachShader healthy fragment_12
                                program_with_vertex_11)) in
  fst r = true /\ Linked (snd r) = true /\ isBound (snd r) = true
  /\ List.last (issued (snd r)) glCreateProgram = glUseProgram 1.
Proof. vm_compute. repeat split. Qed.

Example released_program_keeps_vertex_handle :
  Handle released_program = 0 /\ VertexShaderHandle released_program = 11.
Proof. vm_compute. split; reflexivity. Qed.

Lemma compiled_program_reachable : reachable usual_tags healthy compiled_program.
Proof.
  apply (reachable_step usual_tags healthy OpCompileShader
           (New blank_shader)).
  - apply reachable_New.
  - vm_compute. reflexivity.
Qed.

Lemma released_program_reachable : reachable usual_tags healthy released_program.
Proof.
  apply (run_reachable usual_tags healthy
           [OpAttachShader vertex_11;
            OpReleaseGraphicsResources 0 (Some some_window)]
           (New blank_shader)).
  - apply reachable_New.
  - vm_compute. reflexivity.
Qed.

Lemma refused_program_reachable : reachable usual_tags healthy refused_program.
Proof.
  apply (reachable_step usual_tags healthy (OpAttachShader blank_shader)
           (New blank_shader)).
  - apply reachable_New.
  - vm_compute. reflexivity.
Qed.

Lemma linked_program_reachable : reachable usual_tags healthy linked_program.
Proof.
  apply (run_reachable usual_tags healthy
           [OpAttachShader vertex_11; OpAttachShader fragment_12; OpLink]
           (New blank_shader)).
  - apply reachable_New.
  - vm_compute. reflexivity.
Qed.

(** ** Witnesses *)


(** Both lookups on a new program. *)
Lemma find_fails_fast_without_touching_state_witness :
  FindAttributeArray healthy "vertexMC" (New blank_shader)
    = (-1, New blank_shader)
  /\ FindUniform healthy "vertexMC" (New blank_shader)
    = (-1, New blank_shader).
Proof.
  destruct (find_fails_fast_without_touching_state healthy "vertexMC"
              (New blank_shader)) as (Ha & Hu & _).
  - right. now vm_compute.
  - split; assumption.
Defined.

(** Vertex shader 21 attached to the program that has vertex shader 11. *)
Lemma attach_replaces_shader_of_same_type_witness :
  let r := AttachShader healthy vertex_21 program_with_vertex_11 in
  fst r = true
  /\ issued (snd r) =
       issued program_with_vertex_11
         ++ [glDetachShader
               (cast_GLuint (Handle program_with_vertex_11))
               (cast_GLuint
                  (recorded_handle (vtkShader.ShaderType vertex_21)
                                   program_with_vertex_11));
             glAttachShader
               (cast_GLuint (Handle program_with_vertex_11))
               (cast_GLuint (vtkShader.Handle vertex_21))]
  /\ recorded_handle (vtkShader.ShaderType vertex_21) (snd r)
     = vtkShader.Handle vertex_21
  /\ Linked (snd r) = false
  /\ Handle (snd r) = Handle program_with_vertex_11.
Proof.
  apply (attach_replaces_shader_of_same_type healthy vertex_21
           program_with_vertex_11).
  - now vm_compute.
  - now vm_compute.
  - left. now vm_compute.
  - now vm_compute.
Defined.

(** A shader that was never compiled, attached to a new program. *)
Lemma attach_rejects_shader_without_handle_witness :
  AttachShader healthy blank_shader (New blank_shader) =
    (false,
     set_Error "Shader object was not initialized, cannot attach it."
               (New blank_shader))
  /\ Handle (snd (AttachShader healthy blank_shader (New blank_shader)))
     = Handle (New blank_shader)
  /\ issued (snd (AttachShader healthy blank_shader (New blank_shader)))
     = issued (New blank_shader).
Proof.
  apply (attach_rejects_shader_without_handle healthy blank_shader
           (New blank_shader)).
  now vm_compute.
Defined.

(** A four-line vertex source on the driver whose compiler rejects it. *)
Lemma compile_shader_stops_at_failed_vertex_compile_witness :
  fst (CompileShader rejecting program_with_source) = 0
  /\ issued (snd (CompileShader rejecting program_with_source)) =
       issued program_with_source
         ++ [Shader_Compile (VertexShader program_with_source);
             vtkErrorMacro
               (vtkShader.Error
                  (VertexShader
                     (snd (CompileVertexShader rejecting
                             program_with_source))));
             vtkErrorMacro
               (number_lines 1
                  (getlines
                     (vtkShader.Source
                        (VertexShader
                           (snd (CompileVertexShader rejecting
                                   program_with_source))))))]
  /\ Compiled (snd (CompileShader rejecting program_with_source))
     = Compiled program_with_source.
Proof.
  destruct (compile_shader_stops_at_failed_vertex_compile rejecting
              program_with_source) as [Hfailed _].
  destruct Hfailed as (Hresult & Hissued & _ & _ & _ & Hquiet & _).
  - now vm_compute.
  - now vm_compute.
  - split_and?.
    + now rewrite Hresult.
    + exact Hissued.
    + destruct Hquiet as (_ & _ & _ & Hc & _). exact Hc.
Defined.

(** Releasing the program CompileShader built, twice. *)
Lemma release_graphics_resources_idempotent_witness :
  exists p1 w1,
    ReleaseGraphicsResources healthy 0 (Some some_window) compiled_program
      = Some (p1, w1)
    /\ (Handle p1 = 0 /\ Linked p1 = false /\ Bound p1 = false
        /\ Compiled p1 = false)
    /\ exists p2 w2,
        ReleaseGraphicsResources healthy 0 (Some some_window) p1
          = Some (p2, w2)
        /\ (Handle p2 = 0 /\ Linked p2 = false /\ Bound p2 = false
            /\ Compiled p2 = false)
        /\ p2 = emit (glUseProgram 0) p1.
Proof.
  apply (release_graphics_resources_idempotent usual_tags healthy
           compiled_program 0 0 some_window some_window).
  apply compiled_program_reachable.
Defined.

(** A successful attach right after a refused one. *)
Lemma success_keeps_last_error_witness :
  GetError (snd (AttachShader healthy vertex_11 refused_program))
  = GetError refused_program.
Proof.
  destruct (success_keeps_last_error healthy refused_program
              (snd (AttachShader healthy vertex_11 refused_program)))
    as (Hattach & _).
  apply (Hattach vertex_11). now vm_compute.
Defined.

(** An empty vector of [int] on the linked example program. *)
Lemma set_attribute_array_refuses_empty_witness :
  SetAttributeArray usual_tags healthy "vertexMC" no_ints 3 NoNormalize
                    linked_program
  = (false,
     set_Error
       ("Refusing to upload empty array for attribute " +:+ "vertexMC" +:+ ".")
       linked_program)
  /\ issued (snd (SetAttributeArray usual_tags healthy "vertexMC" no_ints 3
                                    NoNormalize linked_program))
     = issued linked_program.
Proof.
  apply (set_attribute_array_refuses_empty usual_tags healthy Z int_traits
           "vertexMC" no_ints 3 NoNormalize linked_program).
  now vm_compute.
Defined.

(** Detaching from a new program, which has no handle and records nothing. *)
Lemma detach_without_program_handle_witness :
  DetachShader vertex_11 (New blank_shader) =
    (false,
     set_Error "The supplied shader was not attached to this program."
       (set_Error "This shader prorgram has not been initialized yet."
                  (New blank_shader)))
  /\ GetError (snd (DetachShader vertex_11 (New blank_shader)))
     = "The supplied shader was not attached to this program."
  /\ issued (snd (DetachShader vertex_11 (New blank_shader)))
     = issued (New blank_shader).
Proof.
  apply (detach_without_program_handle vertex_11 (New blank_shader)).
  - now vm_compute.
  - left. now vm_compute.
  - now vm_compute.
  - now vm_compute.
Defined.

(** Two lookups of the same attribute on the linked example program. *)
Lemma attribute_lookups_bypass_the_map_witness :
  let query := glGetAttribLocation (cast_GLuint (Handle linked_program))
                                   "vertexMC" in
  let p1 := snd (FindAttributeArray healthy "vertexMC" linked_program) in
  issued p1 = issued linked_program ++ [query]
  /\ issued (snd (FindAttributeArray healthy "vertexMC" p1))
     = issued linked_program ++ [query; query].
Proof.
  destruct (attribute_lookups_bypass_the_map usual_tags healthy "vertexMC"
              linked_program) as (_ & Hquery & _).
  apply Hquery; now vm_compute.
Defined.

(** ** Counterexamples *)

(** C2 as stated fails: on a new program the lookups return -1 and record
    no error. *)
Lemma find_on_unlinked_program_sets_no_error :
  ~ (forall (drv : Driver) (name : string) (p : t),
       name = "" \/ Linked p = false ->
       (fst (FindAttributeArray drv name p) = -1
        /\ issued (snd (FindAttributeArray drv name p)) = issued p
        /\ GetError (snd (FindAttributeArray drv name p)) <> "")
       /\ (fst (FindUniform drv name p) = -1
           /\ issued (snd (FindUniform drv name p)) = issued p
           /\ GetError (snd (FindUniform drv name p)) <> "")).
Proof.
  intros H.
  destruct (H healthy "vertexMC" (New blank_shader)) as ((_ & _ & Herr) & _).
  - right. now vm_compute.
  - apply Herr. now vm_compute.
Qed.

(** C3 as stated fails: after the attribute at location 3 was found on a
    linked program the map has no entry for it. *)
Lemma successful_lookup_adds_no_map_entry :
  ~ (forall (tags : TypeTags) (drv : Driver) (name : string) (p p' : t)
            (location : Z),
       reachable tags drv p -> Linked p = true ->
       FindAttributeArray drv name p = (location, p') -> location <> -1 ->
       Attributes p' !! name = Some location
       /\ FindAttributeArray drv name p' = (location, p')).
Proof.
  intros H.
  destruct (H usual_tags healthy "vertexMC" linked_program
              (snd (FindAttributeArray healthy "vertexMC" linked_program)) 3)
    as [Hentry _].
  - apply linked_program_reachable.
  - now vm_compute.
  - now vm_compute.
  - discriminate.
  - vm_compute in Hentry. discriminate.
Qed.

(** C8 as stated fails: a successful attach after a refused one still shows
    the message of the refusal. *)
Lemma successful_attach_keeps_earlier_error :
  ~ (forall (tags : TypeTags) (drv : Driver) (p p' : t),
       reachable tags drv p ->
       (forall shader, AttachShader drv shader p = (true, p') ->
                       GetError p' = "")
       /\ (Link drv p = (true, p') -> GetError p' = "")).
Proof.
  intros H.
  destruct (H usual_tags healthy refused_program
              (snd (AttachShader healthy vertex_11 refused_program))
              refused_program_reachable) as [Hattach _].
  assert (Hok : AttachShader healthy vertex_11 refused_program
                = (true, snd (AttachShader healthy vertex_11 refused_program)))
    by now vm_compute.
  specialize (Hattach vertex_11 Hok). vm_compute in Hattach.
  discriminate.
Qed.

(** C10 as stated fails: a program can have handle 0 and still record a
    vertex shader; detaching that shader then succeeds. *)
Lemma detach_succeeds_on_released_program :
  ~ (forall (tags : TypeTags) (drv : Driver) (shader : vtkShader.t) (p : t),
       reachable tags drv p ->
       vtkShader.Handle shader <> 0 ->
       vtkShader.ShaderType shader = vtkShader.Vertex
         \/ vtkShader.ShaderType shader = vtkShader.Fragment ->
       Handle p = 0 ->
       recorded_handle (vtkShader.ShaderType shader) p = 0
       /\ fst (DetachShader shader p) = false
       /\ GetError (snd (DetachShader shader p))
          = "The supplied shader was not attached to this program.").
Proof.
  intros H.
  destruct (H usual_tags healthy vertex_11 released_program
              released_program_reachable) as (_ & Hfalse & _).
  - now vm_compute.
  - left. now vm_compute.
  - now vm_compute.
  - vm_compute in Hfalse. discriminate.
Qed.

(** C7 as stated fails: the claim puts no condition on the window, and
    with a null window, or one that is not an OpenGL render window, the
    member goes through the null result of SafeDownCast and has no result,
    on a new program already. *)
Lemma release_without_opengl_window_has_no_result :
  ~ (forall (tags : TypeTags) (drv : Driver) (p : t) (this : nat)
            (win : option vtkOpenGLRenderWindow),
       reachable tags drv p ->
       exists p1 w1,
         ReleaseGraphicsResources drv this win p = Some (p1, w1)
         /\ Handle p1 = 0 /\ Linked p1 = false /\ Bound p1 = false
         /\ Compiled p1 = false).
Proof.
  intros H.
  destruct (H usual_tags healthy (New blank_shader) 0%nat None
              (reachable_New usual_tags healthy blank_shader))
    as (p1 & w1 & Hresult & _).
  vm_compute in Hresult. discriminate.
Qed.

(** What DetachShader does there: it issues the native detach on program 0
    and returns true, the error being the not-initialized message. *)
Example detach_on_released_program :
  fst (DetachShader vertex_11 released_program) = true
  /\ GetError (snd (DetachShader vertex_11 released_program))
     = "This shader prorgram has not been initialized yet."
  /\ List.last (issued (snd (DetachShader vertex_11 released_program)))
               glCreateProgram
     = glDetachShader 0 11.
Proof. vm_compute. repeat split. Qed.

(** ** Witnesses of the further properties *)

(** A new program has no handle. *)
Lemma link_and_bind_need_a_handle_witness :
  fst (Link healthy (New blank_shader)) = false
  /\ fst (Bind healthy (New blank_shader)) = false.
Proof.
  destruct (link_and_bind_need_a_handle usual_tags healthy (New blank_shader))
    as [HLink HBind].
  - apply reachable_New.
  - now vm_compute.
  - rewrite HLink, HBind. split; reflexivity.
Defined.

(** Bind, Release, Bind on the linked example program. *)
Lemma bind_release_bind_does_not_relink_witness :
  issued (snd (Bind healthy
                 (Release (snd (Bind healthy linked_program)))))
  = issued linked_program
      ++ [glUseProgram (cast_GLuint (Handle linked_program));
          glUseProgram 0;
          glUseProgram (cast_GLuint (Handle linked_program))].
Proof.
  apply (bind_release_bind_does_not_relink healthy linked_program).
  now vm_compute.
Defined.

Lemma linked_program_holds_handle_witness : Handle linked_program <> 0.
Proof.
  apply (linked_program_holds_handle usual_tags healthy linked_program).
  - apply linked_program_reachable.
  - now vm_compute.
Defined.

(** Linking the program that has a vertex shader attached. *)
Lemma handle_kept_until_release_witness :
  Handle (snd (Link healthy program_with_vertex_11))
    = Handle program_with_vertex_11
  \/ (Handle (snd (Link healthy program_with_vertex_11)) = 0
      /\ exists this win, OpLink = OpReleaseGraphicsResources this win).
Proof.
  apply (handle_kept_until_release usual_tags healthy OpLink
           program_with_vertex_11).
  - reflexivity.
  - now vm_compute.
Defined.

(** The driver on which no program links reports a log of 12 characters. *)
Lemma failed_link_leaves_program_unlinked_witness :
  fst (Link unlinkable unlinkable_program) = false
  /\ Linked (snd (Link unlinkable unlinkable_program)) = false
  /\ Handle (snd (Link unlinkable unlinkable_program))
     = Handle unlinkable_program
  /\ Attributes (snd (Link unlinkable unlinkable_program))
     = Attributes unlinkable_program.
Proof.
  destruct (failed_link_leaves_program_unlinked unlinkable unlinkable_program)
    as (Hr & Hl & Hh & Ha & _).
  - now vm_compute.
  - now vm_compute.
  - now vm_compute.
  - auto.
Defined.

(** The first attach on a new program. *)
Lemma attach_succeeds_exactly_when_witness :
  fst (AttachShader healthy vertex_11 (New blank_shader)) = true.
Proof.
  apply (attach_succeeds_exactly_when healthy vertex_11 (New blank_shader)).
  split_and?.
  - now vm_compute.
  - left. now vm_compute.
  - right. now vm_compute.
Defined.

Lemma attach_geometry_creates_program_then_fails_witness :
  fst (AttachShader healthy geometry_13 (New blank_shader)) = false
  /\ Handle (snd (AttachShader healthy geometry_13 (New blank_shader))) <> 0.
Proof.
  destruct (attach_geometry_creates_program_then_fails healthy geometry_13
              (New blank_shader)) as (Hr & _ & _ & Hh & _).
  - now vm_compute.
  - now vm_compute.
  - now vm_compute.
  - now vm_compute.
  - auto.
Defined.

Lemma attach_fails_when_program_creation_fails_witness :
  AttachShader exhausted vertex_11 (New blank_shader) =
    (false,
     set_Error "Could not create shader program."
               (emit glCreateProgram (New blank_shader))).
Proof.
  apply (attach_fails_when_program_creation_fails exhausted vertex_11
           (New blank_shader)); now vm_compute.
Defined.

(** Detaching the vertex shader the example program has attached. *)
Lemma detach_succeeds_exactly_when_witness :
  fst (DetachShader vertex_11 program_with_vertex_11) = true.
Proof.
  apply (detach_succeeds_exactly_when vertex_11 program_with_vertex_11).
  split_and?.
  - now vm_compute.
  - left. now vm_compute.
  - now vm_compute.
Defined.

Lemma detach_undoes_attach_witness :
  fst (DetachShader vertex_11 program_with_vertex_11) = true
  /\ recorded_handle (vtkShader.ShaderType vertex_11)
       (snd (DetachShader vertex_11 program_with_vertex_11)) = 0.
Proof.
  destruct (detach_undoes_attach healthy vertex_11 (New blank_shader)
              program_with_vertex_11) as (Hok & Hrec & _).
  - now vm_compute.
  - auto.
Defined.

Lemma setters_refuse_unlinked_program_witness :
  EnableAttributeArray healthy "vertexMC" (New blank_shader) =
    (false,
     set_Error
       ("Could not enable attribute " +:+ "vertexMC" +:+ ". No such attribute.")
       (New blank_shader)).
Proof.
  apply (setters_refuse_unlinked_program usual_tags healthy "vertexMC"
           (New blank_shader)).
  right. now vm_compute.
Defined.

(** The uniform is at location 5 on the healthy driver and unknown to the
    nameless one. *)
Lemma uniform_uploaded_exactly_when_found_witness :
  fst (SetUniform healthy (SetUniformi 7) "opacity" linked_program) = true
  /\ fst (SetUniform nameless (SetUniformi 7) "opacity" linked_program)
     = false.
Proof.
  destruct (uniform_uploaded_exactly_when_found healthy (SetUniformi 7)
              "opacity" linked_program) as [_ Hfound];
    [now vm_compute | now vm_compute |].
  destruct (uniform_uploaded_exactly_when_found nameless (SetUniformi 7)
              "opacity" linked_program) as [Hmissing _];
    [now vm_compute | now vm_compute |].
  rewrite Hfound by now vm_compute.
  rewrite Hmissing by now vm_compute.
  split; reflexivity.
Defined.

Lemma attribute_call_issued_exactly_when_found_witness :
  fst (EnableAttributeArray healthy "vertexMC" linked_program) = true
  /\ fst (EnableAttributeArray nameless "vertexMC" linked_program) = false.
Proof.
  destruct (attribute_call_issued_exactly_when_found usual_tags healthy
              "vertexMC" linked_program) as [_ Hfound];
    [now vm_compute | now vm_compute |].
  destruct (attribute_call_issued_exactly_when_found usual_tags nameless
              "vertexMC" linked_program) as [Hmissing _];
    [now vm_compute | now vm_compute |].
  destruct Hfound as [Henable _]; [now vm_compute|].
  destruct Hmissing as [Hrefused _]; [now vm_compute|].
  rewrite Henable, Hrefused. split; reflexivity.
Defined.

(** Three [int]s upload; a container of an untagged element type does not. *)
Lemma set_attribute_array_uploads_client_memory_witness :
  fst (SetAttributeArray usual_tags healthy "vertexMC" three_ints 3
                         NoNormalize linked_program) = true
  /\ fst (@SetAttributeArray usual_tags healthy bool untagged "vertexMC"
                             two_flags 1 NoNormalize linked_program) = false.
Proof.
  destruct (set_attribute_array_uploads_client_memory usual_tags healthy
              Z int_traits "vertexMC" three_ints 3 NoNormalize linked_program)
    as [_ Hupload]; [now vm_compute|].
  destruct (set_attribute_array_uploads_client_memory usual_tags healthy
              bool untagged "vertexMC" two_flags 1 NoNormalize linked_program)
    as [Hrefused _]; [now vm_compute|].
  rewrite Hupload by now vm_compute.
  rewrite Hrefused by now vm_compute.
  split; reflexivity.
Defined.

Lemma compile_shader_stops_at_failed_fragment_compile_witness :
  fst (CompileShader fragment_rejecting program_with_sources) = 0
  /\ List.filter is_native
       (issued (snd (CompileShader fragment_rejecting program_with_sources)))
     = List.filter is_native (issued program_with_sources).
Proof.
  destruct (compile_shader_stops_at_failed_fragment_compile
              fragment_rejecting program_with_sources
              (snd (CompileVertexShader fragment_rejecting
                      program_with_sources)))
    as (Hresult & _ & Hnative & _).
  - now vm_compute.
  - now vm_compute.
  - now vm_compute.
  - split; [now rewrite Hresult | exact Hnative].
Defined.

Lemma compile_shader_success_state_witness :
  Compiled compiled_program = true /\ Linked compiled_program = true
  /\ Handle compiled_program <> 0.
Proof.
  destruct (compile_shader_success_state healthy (New blank_shader)
              compiled_program) as (Hc & Hl & Hh & _).
  - now vm_compute.
  - auto.
Defined.

Lemma release_tears_down_compiled_program_witness :
  exists p' renWin',
    ReleaseGraphicsResources healthy 0 (Some some_window) compiled_program
      = Some (p', renWin')
    /\ Handle p' = 0 /\ VertexShaderHandle p' = 0
    /\ FragmentShaderHandle p' = 0.
Proof.
  destruct (release_tears_down_compiled_program healthy 0 some_window
              compiled_program)
    as (p' & w' & Hr & _ & Hh & Hv & Hf & _).
  - now vm_compute.
  - now vm_compute.
  - now vm_compute.
  - now vm_compute.
  - now vm_compute.
  - now vm_compute.
  - now vm_compute.
  - now vm_compute.
  - exists p', w'. auto.
Defined.

(** A cache that shows program 4 is untouched when program 7 is released
    and forgets its entry when program 4 is. *)
Lemma release_forgets_only_this_program_witness :
  (exists p',
      ReleaseGraphicsResources healthy 7 (Some (window_showing 4))
                               linked_program
      = Some (p', window_showing 4))
  /\ (exists p',
         ReleaseGraphicsResources healthy 4 (Some (window_showing 4))
                                  linked_program
         = Some (p', ClearLastShaderBound (window_showing 4))).
Proof.
  split.
  - apply (release_forgets_only_this_program healthy 7 (window_showing 4)
             linked_program).
    now vm_compute.
  - apply (release_forgets_only_this_program healthy 4 (window_showing 4)
             linked_program).
    now vm_compute.
Defined.

Lemma listing_of_source_below_int_max_witness :
  listing four_line_source = number_lines 1 (getlines four_line_source).
Proof.
  apply (listing_of_source_below_int_max four_line_source).
  now vm_compute.
Defined.

(** The released example program takes fragment shader 12. *)
Lemma released_program_can_be_reused_witness :
  exists p1 renWin1,
    ReleaseGraphicsResources healthy 0 (Some some_window) linked_program
      = Some (p1, renWin1)
    /\ Handle p1 = 0
    /\ (cast_GLuint (created_program healthy (issued p1 ++ [glCreateProgram]))
          <> 0 ->
        fst (AttachShader healthy fragment_12 p1) = true).
Proof.
  destruct (released_program_can_be_reused healthy 0 some_window fragment_12
              linked_program) as (p1 & w1 & Hr & Hz & Hattach).
  - now vm_compute.
  - right. now vm_compute.
  - exists p1, w1. split_and?; auto. intros Hc. apply (Hattach Hc).
Defined.

(** Attaching to a bound program leaves it bound. *)
Lemma bound_between_bind_and_release_witness :
  isBound (snd (Bind healthy linked_program)) = true
  /\ isBound (Release (snd (Bind healthy linked_program))) = false.
Proof.
  destruct (bound_between_bind_and_release usual_tags healthy)
    as (Hset & _ & Hclear & _).
  split.
  - apply (Hset linked_program). now vm_compute.
  - apply Hclear.
Defined.

End vtkShaderProgram.
